(** * GA4_sessions_fetcher: a shallow embedding of the Cloud Function handlers

    The Python sources ([main_oauth.py], [main.py], [main_old.py],
    [sessions.py], [accounts.py]) are HTTP handlers that read a Flask-style
    request, call the Google Analytics Admin / Data SDK and answer with a
    [(body, status, headers)] triple.  They are modelled here as programs
    in a small writer/exception monad: a run returns the Python outcome
    (a value or a raised exception) together with the log of vendor SDK
    calls that were issued, in order.  The vendor SDK itself is a parameter
    (a record of functions), so every statement quantifies over every
    vendor behaviour. *)

From Stdlib Require Import String Ascii List ZArith Bool Lia.
Set Warnings "-register-all".
Import ListNotations.
Open Scope string_scope.

(** ** The Python runtime fragment used by the handlers *)
Module Py.

(** Python values that can come out of a parsed JSON body (floats are not
    modelled).  [JNull] is Python's [None]; a [JObj] is the [dict] built by
    [json.loads], keys in insertion order. *)
Inductive json : Type :=
| JNull
| JBool (b : bool)
| JInt (z : Z)
| JStr (s : string)
| JList (l : list json)
| JObj (o : list (string * json)).

(** Python truthiness ([bool(v)]). *)
Definition truthy (v : json) : bool :=
  match v with
  | JNull => false
  | JBool b => b
  | JInt z => negb (Z.eqb z 0)
  | JStr s => match s with EmptyString => false | _ => true end
  | JList l => match l with [] => false | _ => true end
  | JObj o => match o with [] => false | _ => true end
  end.

(** [a or b] when [b] has no effect. *)
Definition py_or (a b : json) : json := if truthy a then a else b.

(** The name of the Python type of a value, as used in error messages. *)
Definition type_name (v : json) : string :=
  match v with
  | JNull => "NoneType"
  | JBool _ => "bool"
  | JInt _ => "int"
  | JStr _ => "str"
  | JList _ => "list"
  | JObj _ => "dict"
  end.

(** Python exceptions raised on the modelled paths; [str(e)] is the message. *)
Inductive exn : Type :=
| ValueError (msg : string)
| AttributeError (msg : string)
| IndexError (msg : string)
| TypeError (msg : string)
| VendorError (msg : string).

Definition str_exn (e : exn) : string :=
  match e with
  | ValueError m | AttributeError m | IndexError m | TypeError m
  | VendorError m => m
  end.

(** [except ValueError]. *)
Definition is_value_error (e : exn) : bool :=
  match e with ValueError _ => true | _ => false end.

(** [except Exception]: every modelled exception is an [Exception]. *)
Definition is_exception (e : exn) : bool := true.

Inductive outcome (A : Type) : Type :=
| Ok (a : A)
| Raise (e : exn).
Arguments Ok {A} a.
Arguments Raise {A} e.

(** *** Strings *)

(** Strings are sequences of code points 0-255 (an [ascii] is one code
    point): header values reach the handlers decoded as Latin-1.
    [str.isspace] on those code points: \t \n \v \f \r, \x1c-\x1f, space,
    \x85 and \xa0. *)
Definition py_isspace (c : ascii) : bool :=
  let n := nat_of_ascii c in
  (((9 <=? n) && (n <=? 13)) || ((28 <=? n) && (n <=? 32)) ||
   (n =? 133) || (n =? 160))%nat.

Fixpoint lstrip_list (l : list ascii) : list ascii :=
  match l with
  | [] => []
  | c :: t => if py_isspace c then lstrip_list t else l
  end.

(** [s.strip()]. *)
Definition strip (s : string) : string :=
  string_of_list_ascii
    (rev (lstrip_list (rev (lstrip_list (list_ascii_of_string s))))).

(** [s.split(sep, 1)] for a one-character separator. *)
Fixpoint split_once (sep : ascii) (s : string) : list string :=
  match s with
  | EmptyString => [EmptyString]
  | String c s' =>
      if Ascii.eqb c sep then [EmptyString; s']
      else match split_once sep s' with
           | h :: t => String c h :: t
           | [] => [String c EmptyString]
           end
  end.

(** [s.split(sep)] for a one-character separator. *)
Fixpoint split (sep : ascii) (s : string) : list string :=
  match s with
  | EmptyString => [EmptyString]
  | String c s' =>
      let r := split sep s' in
      if Ascii.eqb c sep then EmptyString :: r
      else match r with
           | h :: t => String c h :: t
           | [] => [String c EmptyString]
           end
  end.

(** ASCII lower-casing, for the case-insensitive header lookup of
    werkzeug's [Headers]. *)
Definition lower_ascii (c : ascii) : ascii :=
  let n := nat_of_ascii c in
  if ((65 <=? n) && (n <=? 90))%nat then ascii_of_nat (n + 32) else c.

Fixpoint lower (s : string) : string :=
  match s with
  | EmptyString => EmptyString
  | String c s' => String (lower_ascii c) (lower s')
  end.

(** *** [str(n)] and [repr(s)] *)

(** [str(n)] for an [int]: decimal digits, no leading zero, a ["-"] in
    front of a negative number.  [digits_acc] produces the digits of
    [n >= 0] in front of [acc]; [fuel] bounds the number of digits. *)
Definition digit_char (d : Z) : ascii := ascii_of_nat (48 + Z.to_nat d).

Fixpoint digits_acc (fuel : nat) (n : Z) (acc : list ascii) : list ascii :=
  match fuel with
  | O => acc
  | S f =>
      let acc' := digit_char (n mod 10) :: acc in
      if (n <? 10)%Z then acc' else digits_acc f (n / 10) acc'
  end.

Definition digits_of (n : Z) : list ascii :=
  digits_acc (S (Z.to_nat (Z.log2 n))) n [].

Definition str_of_Z (n : Z) : string :=
  if (n <? 0)%Z then String "-" (string_of_list_ascii (digits_of (- n)))
  else string_of_list_ascii (digits_of n).

Definition hex_char (n : nat) : ascii :=
  ascii_of_nat (if (n <? 10)%nat then 48 + n else 87 + n).

(** One code point inside [repr(s)] quoted with [q]: the quote and the
    backslash are escaped, \t \n \r by name, the other control characters
    and the non-printable code points \x7f-\xa0 and \xad as [\xhh]. *)
Definition repr_char (q c : ascii) : list ascii :=
  let n := nat_of_ascii c in
  if Ascii.eqb c q || (n =? 92)%nat then ["092"%char; c]
  else if (n =? 9)%nat then ["092"%char; "t"%char]
  else if (n =? 10)%nat then ["092"%char; "n"%char]
  else if (n =? 13)%nat then ["092"%char; "r"%char]
  else if ((n <? 32) || ((127 <=? n) && (n <=? 160)) || (n =? 173))%nat then
    ["092"%char; "x"%char; hex_char (n / 16); hex_char (n mod 16)]
  else [c].

(** [repr(s)]: single quotes, unless [s] has a single quote and no double
    quote. *)
Definition py_repr (s : string) : string :=
  let l := list_ascii_of_string s in
  let q := if existsb (fun c => Ascii.eqb c "'") l &&
              negb (existsb (fun c => Ascii.eqb c "034"%char) l)
           then "034"%char else "'"%char in
  string_of_list_ascii (q :: flat_map (repr_char q) l ++ [q]).

(** *** [int(s)] on a [str], base 10 (CPython's [PyLong_FromUnicodeObject]) *)

(** The whitespace [int()] skips around the number: the ASCII whitespace of
    [Py_ISSPACE] (\t \n \v \f \r and space), and \x85 and \xa0, which are
    turned into spaces first.  Unlike [str.strip()], \x1c-\x1f are not
    skipped. *)
Definition int_space (c : ascii) : bool :=
  let n := nat_of_ascii c in
  (((9 <=? n) && (n <=? 13)) || (n =? 32) || (n =? 133) || (n =? 160))%nat.

Fixpoint skip_int_space (l : list ascii) : list ascii :=
  match l with
  | [] => []
  | c :: t => if int_space c then skip_int_space t else l
  end.

Definition is_digit (c : ascii) : bool :=
  let n := nat_of_ascii c in ((48 <=? n) && (n <=? 57))%nat.

Definition digit_value (c : ascii) : Z := Z.of_nat (nat_of_ascii c - 48)%nat.

(** Digits, with single underscores allowed between two digits. *)
Fixpoint parse_digits (acc : Z) (prev_digit : bool) (l : list ascii)
  : option Z :=
  match l with
  | [] => if prev_digit then Some acc else None
  | c :: t =>
      if is_digit c then parse_digits (acc * 10 + digit_value c) true t
      else if Ascii.eqb c "_" && prev_digit then parse_digits acc false t
      else None
  end.

(** The run of digits and underscores after the sign, and what follows. *)
Fixpoint scan_run (l : list ascii) : list ascii * list ascii :=
  match l with
  | [] => ([], [])
  | c :: t =>
      if is_digit c || Ascii.eqb c "_" then
        let (r, rest) := scan_run t in (c :: r, rest)
      else ([], l)
  end.

Fixpoint count_digits (l : list ascii) : Z :=
  match l with
  | [] => 0%Z
  | c :: t => ((if is_digit c then 1 else 0) + count_digits t)%Z
  end.

(** [sys.get_int_max_str_digits()], at its default. *)
Definition int_max_str_digits : Z := 4300%Z.

Definition int_invalid_literal (s : string) : string :=
  "invalid literal for int() with base 10: " ++ substring 0 200 (py_repr s).

Definition int_too_many_digits (d : Z) : string :=
  "Exceeds the limit (" ++ str_of_Z int_max_str_digits ++
  " digits) for integer string conversion: value has " ++ str_of_Z d ++
  " digits; use sys.set_int_max_str_digits() to increase the limit".

(** [int(s)]: whitespace, an optional sign, digits with single underscores
    between them, whitespace.  A well-formed run of more than
    [int_max_str_digits] digits is refused before the rest of the string is
    looked at; every other failure reports [repr(s)], cut at 200 code
    points. *)
Definition int_value (s : string) : outcome Z :=
  let l := skip_int_space (list_ascii_of_string s) in
  let '(sign, l) :=
    match l with
    | c :: t =>
        if Ascii.eqb c "-" then ((-1)%Z, t)
        else if Ascii.eqb c "+" then (1%Z, t) else (1%Z, l)
    | [] => (1%Z, [])
    end in
  let '(run, rest) := scan_run l in
  match parse_digits 0 false run with
  | None => Raise (ValueError (int_invalid_literal s))
  | Some z =>
      if (int_max_str_digits <? count_digits run)%Z then
        Raise (ValueError (int_too_many_digits (count_digits run)))
      else match skip_int_space rest with
           | [] => Ok (sign * z)%Z
           | _ :: _ => Raise (ValueError (int_invalid_literal s))
           end
  end.

Definition int_of_str (s : string) : option Z :=
  match int_value s with
  | Ok z => Some z
  | Raise _ => None
  end.

End Py.

(** ** The vendor SDK (google.analytics.admin / data_v1beta) *)
Module GA.
Import Py.

(** [google.oauth2.credentials.Credentials]; [DefaultCreds] are the
    ambient service-account credentials picked up when a client is built
    without [credentials=]. *)
Inductive credentials : Type :=
| DefaultCreds
| UserCreds (token : string) (scopes : list string).

(** [RunReportRequest(property=f"properties/{property_id}", metrics=...,
    date_ranges=[{"start_date": ..., "end_date": ...}])].  The property is
    kept as the value substituted in the f-string. *)
Record RunReportRequest : Type := {
  rr_property_id : json;
  rr_metrics : list string;
  rr_date_ranges : list (json * json)
}.

Record MetricValue : Type := { mv_value : string }.
Record Row : Type := { metric_values : list MetricValue }.
Record RunReportResponse : Type := { rows : list Row }.

Record PropertySummary : Type := {
  property : string;
  ps_display_name : string
}.

Record AccountSummary : Type := {
  account : string;
  as_display_name : string;
  property_summaries : list PropertySummary
}.

(** A vendor: the result of each SDK call, for the credentials of the
    client it is issued on, and the exception [RunReportRequest] raises for
    a date range whose dates are not both strings ([v_request_error sd ed]:
    the protobuf runtime rejects a non-[str] value for a string field, a
    [TypeError] for an [int]).  The ambient credentials of a client built
    without [credentials=] are not looked up separately: [DefaultCreds]
    stands for them, and a failure to find them is the vendor's answer to
    the call made with them. *)
Record vendor : Type := {
  v_run_report : credentials -> RunReportRequest -> outcome RunReportResponse;
  v_list_account_summaries : credentials -> outcome (list AccountSummary);
  v_request_error : json -> json -> exn
}.

(** A value a string field of a request message accepts: a [str], or
    [None], which leaves the field unset. *)
Definition str_field_ok (v : json) : bool :=
  match v with
  | JStr _ | JNull => true
  | _ => false
  end.

(** An SDK call, as recorded in the log. *)
Inductive vcall : Type :=
| VRunReport (c : credentials) (r : RunReportRequest)
| VListAccountSummaries (c : credentials).

End GA.

(** ** Writer/exception monad: outcome and the log of vendor calls *)
Module Eff.
Import Py GA.

Definition M (A : Type) : Type := (outcome A * list vcall)%type.

Definition ret {A} (a : A) : M A := (Ok a, []).

Definition bind {A B} (m : M A) (f : A -> M B) : M B :=
  match m with
  | (Ok a, l) => let (o, l') := f a in (o, (l ++ l')%list)
  | (Raise e, l) => (Raise e, l)
  end.

Notation "x <- m ;; k" := (bind m (fun x => k))
  (at level 61, m at next level, right associativity).

Definition raise {A} (e : exn) : M A := (Raise e, []).

(** [try: m except <catches> as e: h(e)]. *)
Definition try_except {A} (catches : exn -> bool) (m : M A) (h : exn -> M A)
  : M A :=
  match m with
  | (Raise e, l) =>
      if catches e then let (o, l') := h e in (o, (l ++ l')%list) else (Raise e, l)
  | r => r
  end.

(** [l[i]]. *)
Definition py_index {A} (l : list A) (i : nat) : M A :=
  match nth_error l i with
  | Some x => ret x
  | None => raise (IndexError "list index out of range")
  end.

(** [l[-1]]. *)
Definition py_index_last {A} (l : list A) : M A :=
  match rev l with
  | x :: _ => ret x
  | [] => raise (IndexError "list index out of range")
  end.

(** [int(s)]. *)
Definition py_int (s : string) : M Z := (int_value s, []).

(** [dict.get(k)] on a value; a non-[dict] has no [get]. *)
Definition dict_lookup (o : list (string * json)) (k : string) : json :=
  match find (fun kv => String.eqb (fst kv) k) o with
  | Some (_, v) => v
  | None => JNull
  end.

Definition py_get (data : json) (k : string) : M json :=
  match data with
  | JObj o => ret (dict_lookup o k)
  | _ => raise (AttributeError
           ("'" ++ type_name data ++ "' object has no attribute 'get'"))
  end.

(** [a or b] where evaluating [b] may raise: [b] only runs when [a] is falsy. *)
Definition py_or_m (a : json) (b : M json) : M json :=
  if truthy a then ret a else b.

Fixpoint mapM {A B} (f : A -> M B) (l : list A) : M (list B) :=
  match l with
  | [] => ret []
  | x :: t => y <- f x ;; ys <- mapM f t ;; ret (y :: ys)
  end.

(** [RunReportRequest(property=f"properties/{property_id}",
    metrics=[{"name": "sessions"}],
    date_ranges=[{"start_date": start_date, "end_date": end_date}])]: the
    f-string accepts any value; the dates must be strings, otherwise the
    request is not built and no call follows. *)
Definition run_report_request (V : vendor) (property_id start_date end_date : json)
  : M RunReportRequest :=
  if str_field_ok start_date && str_field_ok end_date then
    ret {| rr_property_id := property_id; rr_metrics := ["sessions"];
           rr_date_ranges := [(start_date, end_date)] |}
  else raise (v_request_error V start_date end_date).

(** [client.run_report(request)] and [client.list_account_summaries()]. *)
Definition run_report (V : vendor) (c : credentials) (r : RunReportRequest)
  : M RunReportResponse :=
  (v_run_report V c r, [VRunReport c r]).

Definition list_account_summaries (V : vendor) (c : credentials)
  : M (list AccountSummary) :=
  (v_list_account_summaries V c, [VListAccountSummaries c]).

End Eff.

(** ** HTTP requests and responses (Flask / functions-framework) *)
Module Http.
Import Py.

(** [request.method], [request.headers], [request.args] (a MultiDict, in
    order) and [request.get_json(silent=True)] ([None] when the body is
    missing or is not valid JSON). *)
Record request : Type := {
  req_method : string;
  req_headers : list (string * string);
  req_args : list (string * string);
  req_get_json : option json
}.

(** [body] is either a literal string or [json.dumps(j)]. *)
Inductive body : Type :=
| BText (s : string)
| BJson (j : json).

Record response : Type := {
  resp_body : body;
  resp_status : Z;
  resp_headers : list (string * string)
}.

(** [request.headers.get(k, default)], case-insensitive. *)
Fixpoint headers_get (hs : list (string * string)) (k default : string)
  : string :=
  match hs with
  | [] => default
  | (k', v) :: t =>
      if String.eqb (lower k') (lower k) then v else headers_get t k default
  end.

(** [request.args.get(k) if request.args else None]. *)
Definition args_param (req : request) (k : string) : json :=
  match req_args req with
  | [] => JNull
  | args =>
      match find (fun kv => String.eqb (fst kv) k) args with
      | Some (_, v) => JStr v
      | None => JNull
      end
  end.

(** [request.get_json(silent=True) or {}]. *)
Definition json_or_empty (req : request) : json :=
  py_or (match req_get_json req with Some j => j | None => JNull end) (JObj []).

(** The value at a key path in a JSON response body. *)
Fixpoint json_at (j : json) (path : list string) : option json :=
  match path with
  | [] => Some j
  | k :: p =>
      match j with
      | JObj o =>
          match find (fun kv => String.eqb (fst kv) k) o with
          | Some (_, v) => json_at v p
          | None => None
          end
      | _ => None
      end
  end.

Definition body_at (r : response) (path : list string) : option json :=
  match resp_body r with
  | BJson j => json_at j path
  | BText _ => None
  end.

End Http.

(** ** The account-listing loop
    The same loop body appears verbatim in [main_oauth.ga4_list_accounts],
    [main.ga4_list_accounts_oauth], [main_old.ga4_list_accounts] and
    [accounts.main]:
<<
    for summary in client.list_account_summaries():
        account_entry = {"account": summary.account,
                         "displayName": summary.display_name,
                         "properties": []}
        for prop_summary in summary.property_summaries:
            prop_id = prop_summary.property.split("/")[-1]
            account_entry["properties"].append(
                {"property": prop_summary.property,
                 "propertyId": prop_id,
                 "displayName": prop_summary.display_name})
        accounts_data.append(account_entry)
>> *)
Module Listing.
Import Py GA Eff.

Definition property_entry (prop_summary : PropertySummary) : M json :=
  prop_id <- py_index_last (split "/" (property prop_summary)) ;;
  ret (JObj [("property", JStr (property prop_summary));
             ("propertyId", JStr prop_id);
             ("displayName", JStr (ps_display_name prop_summary))]).

Definition account_entry (summary : AccountSummary) : M json :=
  props <- mapM property_entry (property_summaries summary) ;;
  ret (JObj [("account", JStr (account summary));
             ("displayName", JStr (as_display_name summary));
             ("properties", JList props)]).

(** [accounts_data] built from the summaries, in order. *)
Definition accounts_data (summaries : list AccountSummary) : M (list json) :=
  mapM account_entry summaries.

End Listing.

(** ** [main_oauth.py] *)
Module MainOauth.
Import Py GA Eff Http.

Definition content_type : list (string * string) :=
  [("Content-Type", "application/json")].

Definition json_response (j : json) (status : Z) : response :=
  {| resp_body := BJson j; resp_status := status;
     resp_headers := content_type |}.

(** [_get_user_credentials_from_request] (lines 10-32). *)
Definition get_user_credentials_from_request (req : request)
  : M (credentials * string) :=
  let auth_header := headers_get (req_headers req) "Authorization" EmptyString in
  if negb (String.prefix "Bearer " auth_header) then
    raise (ValueError
      ("Missing or invalid Authorization header. " ++
       "Expected: 'Authorization: Bearer <ACCESS_TOKEN>'"))
  else
    part <- py_index (split_once " " auth_header) 1 ;;
    let token := strip part in
    if String.eqb token EmptyString then
      raise (ValueError "Empty bearer token in Authorization header.")
    else ret (UserCreds token [], token).

(** [try: user_creds, _ = ... except ValueError as e: return (..., 401, ...)]:
    [inr] is the early return. *)
Definition authenticate (req : request) : M ((credentials * string) + response) :=
  try_except is_value_error
    (c <- get_user_credentials_from_request req ;; ret (inl c))
    (fun e => ret (inr (json_response (JObj [("error", JStr (str_exn e))]) 401))).

(** [ga4_list_accounts] (lines 37-80). *)
Definition ga4_list_accounts (V : vendor) (req : request) : M response :=
  auth <- authenticate req ;;
  match auth with
  | inr resp => ret resp
  | inl (user_creds, _) =>
      summaries <- list_account_summaries V user_creds ;;
      data <- Listing.accounts_data summaries ;;
      ret (json_response (JObj [("accounts", JList data)]) 200)
  end.

(** Parameters from the query string or the JSON body (lines 107-120). *)
Definition read_params (req : request) : M (json * json * json) :=
  let property_id := args_param req "property_id" in
  let start_date := args_param req "start_date" in
  let end_date := args_param req "end_date" in
  if negb (truthy property_id) then
    data <- try_except is_exception (ret (json_or_empty req))
              (fun _ => ret (JObj [])) ;;
    property_id <- py_or_m property_id (py_get data "property_id") ;;
    start_date <- py_or_m start_date (py_get data "start_date") ;;
    end_date <- py_or_m end_date (py_get data "end_date") ;;
    ret (property_id, start_date, end_date)
  else ret (property_id, start_date, end_date).

(** Date defaults, the Data API call and the result (lines 129-166). *)
Definition sessions_report (V : vendor) (user_creds : credentials)
  (property_id start_date end_date : json) : M response :=
  let start_date := if negb (truthy start_date) then JStr "30daysAgo" else start_date in
  let end_date := if negb (truthy end_date) then JStr "today" else end_date in
  request_body <- run_report_request V property_id start_date end_date ;;
  response <- run_report V user_creds request_body ;;
  total_sessions <-
    (if negb (match rows response with [] => false | _ => true end) then ret 0%Z
     else row <- py_index (rows response) 0 ;;
          mv <- py_index (metric_values row) 0 ;;
          py_int (mv_value mv)) ;;
  ret (json_response
    (JObj [("propertyId", property_id);
           ("dateRange", JObj [("start_date", start_date); ("end_date", end_date)]);
           ("metrics", JObj [("sessions", JInt total_sessions)])]) 200).

(** [ga4_property_sessions] (lines 85-166). *)
Definition ga4_property_sessions (V : vendor) (req : request) : M response :=
  auth <- authenticate req ;;
  match auth with
  | inr resp => ret resp
  | inl (user_creds, _) =>
      params <- read_params req ;;
      let '(property_id, start_date, end_date) := params in
      if negb (truthy property_id) then
        ret (json_response
          (JObj [("error", JStr "Missing required parameter: property_id")]) 400)
      else sessions_report V user_creds property_id start_date end_date
  end.

End MainOauth.

(** ** [main.py] (CORS-enabled variant) *)
Module Main.
Import Py GA Eff Http.

(** [_cors_headers] (lines 14-20). *)
Definition cors_headers : list (string * string) :=
  [("Content-Type", "application/json");
   ("Access-Control-Allow-Origin", "*");
   ("Access-Control-Allow-Headers", "Authorization, Content-Type");
   ("Access-Control-Allow-Methods", "GET, POST, OPTIONS")].

Definition json_response (j : json) (status : Z) : response :=
  {| resp_body := BJson j; resp_status := status;
     resp_headers := cors_headers |}.

Definition preflight_response : response :=
  {| resp_body := BText EmptyString; resp_status := 204;
     resp_headers := cors_headers |}.

(** [_handle_preflight] (lines 24-28). *)
Definition handle_preflight (req : request) : option response :=
  if String.eqb (req_method req) "OPTIONS" then Some preflight_response
  else None.

(** [_get_user_credentials_from_request] (lines 34-48). *)
Definition get_user_credentials_from_request (req : request)
  : M (credentials * string) :=
  let auth_header := headers_get (req_headers req) "Authorization" EmptyString in
  if negb (String.prefix "Bearer " auth_header) then
    raise (ValueError
      "Missing/invalid Authorization header. Use: Bearer <ACCESS_TOKEN>")
  else
    part <- py_index (split_once " " auth_header) 1 ;;
    let token := strip part in
    if String.eqb token EmptyString then raise (ValueError "Empty bearer token.")
    else ret (UserCreds token
                ["https://www.googleapis.com/auth/analytics.readonly"], token).

(** The [try] block of [ga4_list_accounts_oauth] (lines 60-84). *)
Definition list_accounts_try (V : vendor) (req : request) : M response :=
  c <- get_user_credentials_from_request req ;;
  let (user_creds, _) := c in
  summaries <- list_account_summaries V user_creds ;;
  data <- Listing.accounts_data summaries ;;
  ret (json_response (JObj [("accounts", JList data)]) 200).

(** [ga4_list_accounts_oauth] (lines 54-92); [format_exc] is the text
    [traceback.format_exc()] renders for the exception being handled. *)
Definition ga4_list_accounts_oauth (format_exc : exn -> string)
  (V : vendor) (req : request) : M response :=
  if String.eqb (req_method req) "OPTIONS" then ret preflight_response
  else
    try_except is_exception (list_accounts_try V req)
      (fun e => ret (json_response
         (JObj [("error", JStr (str_exn e)); ("traceback", JStr (format_exc e))])
         500)).

Definition authenticate (req : request) : M ((credentials * string) + response) :=
  try_except is_value_error
    (c <- get_user_credentials_from_request req ;; ret (inl c))
    (fun e => ret (inr (json_response (JObj [("error", JStr (str_exn e))]) 401))).

(** Parameters from the query string or the JSON body (lines 120-128). *)
Definition read_params (req : request) : M (json * json * json) :=
  let property_id := args_param req "property_id" in
  let start_date := args_param req "start_date" in
  let end_date := args_param req "end_date" in
  if negb (truthy property_id) then
    let data := json_or_empty req in
    property_id <- py_or_m property_id (py_get data "property_id") ;;
    start_date <- py_or_m start_date (py_get data "start_date") ;;
    end_date <- py_or_m end_date (py_get data "end_date") ;;
    ret (property_id, start_date, end_date)
  else ret (property_id, start_date, end_date).

(** Date defaults, the Data API call and the result (lines 133-157). *)
Definition sessions_report (V : vendor) (user_creds : credentials)
  (property_id start_date end_date : json) : M response :=
  let start_date := py_or start_date (JStr "30daysAgo") in
  let end_date := py_or end_date (JStr "today") in
  request_body <- run_report_request V property_id start_date end_date ;;
  response <- run_report V user_creds request_body ;;
  total_sessions <-
    (match rows response with
     | [] => ret 0%Z
     | _ => row <- py_index (rows response) 0 ;;
            mv <- py_index (metric_values row) 0 ;;
            py_int (mv_value mv)
     end) ;;
  ret (json_response
    (JObj [("propertyId", property_id);
           ("dateRange", JObj [("start_date", start_date); ("end_date", end_date)]);
           ("metrics", JObj [("sessions", JInt total_sessions)])]) 200).

(** [ga4_property_sessions_oauth] (lines 98-157). *)
Definition ga4_property_sessions_oauth (V : vendor) (req : request) : M response :=
  match handle_preflight req with
  | Some pre => ret pre
  | None =>
      auth <- authenticate req ;;
      match auth with
      | inr resp => ret resp
      | inl (user_creds, _) =>
          params <- read_params req ;;
          let '(property_id, start_date, end_date) := params in
          if negb (truthy property_id) then
            ret (json_response
              (JObj [("error", JStr "Missing required parameter: property_id")]) 400)
          else sessions_report V user_creds property_id start_date end_date
      end
  end.

End Main.

(** ** [main_old.py] (service-account variant, no authorization check) *)
Module MainOld.
Import Py GA Eff Http.

Definition content_type : list (string * string) :=
  [("Content-Type", "application/json")].

Definition json_response (j : json) (status : Z) : response :=
  {| resp_body := BJson j; resp_status := status;
     resp_headers := content_type |}.

(** [ga4_list_accounts] (lines 9-61). *)
Definition ga4_list_accounts (V : vendor) (req : request) : M response :=
  summaries <- list_account_summaries V DefaultCreds ;;
  data <- Listing.accounts_data summaries ;;
  ret (json_response (JObj [("accounts", JList data)]) 200).

(** Parameters from the query string or the JSON body (lines 88-103). *)
Definition read_params (req : request) : M (json * json * json) :=
  let property_id := args_param req "property_id" in
  let start_date := args_param req "start_date" in
  let end_date := args_param req "end_date" in
  if negb (truthy property_id) then
    data <- try_except is_exception (ret (json_or_empty req))
              (fun _ => ret (JObj [])) ;;
    property_id <- py_or_m property_id (py_get data "property_id") ;;
    start_date <- py_or_m start_date (py_get data "start_date") ;;
    end_date <- py_or_m end_date (py_get data "end_date") ;;
    ret (property_id, start_date, end_date)
  else ret (property_id, start_date, end_date).

(** Date defaults, the Data API call and the result (lines 112-150). *)
Definition sessions_report (V : vendor) (property_id start_date end_date : json)
  : M response :=
  let start_date := if negb (truthy start_date) then JStr "30daysAgo" else start_date in
  let end_date := if negb (truthy end_date) then JStr "today" else end_date in
  request_body <- run_report_request V property_id start_date end_date ;;
  response <- run_report V DefaultCreds request_body ;;
  total_sessions <-
    (if negb (match rows response with [] => false | _ => true end) then ret 0%Z
     else row <- py_index (rows response) 0 ;;
          mv <- py_index (metric_values row) 0 ;;
          py_int (mv_value mv)) ;;
  ret (json_response
    (JObj [("propertyId", property_id);
           ("dateRange", JObj [("start_date", start_date); ("end_date", end_date)]);
           ("metrics", JObj [("sessions", JInt total_sessions)])]) 200).

(** [ga4_property_sessions] (lines 66-150). *)
Definition ga4_property_sessions (V : vendor) (req : request) : M response :=
  params <- read_params req ;;
  let '(property_id, start_date, end_date) := params in
  if negb (truthy property_id) then
    ret (json_response
      (JObj [("error", JStr "Missing required parameter: property_id")]) 400)
  else sessions_report V property_id start_date end_date.

End MainOld.

(** ** [sessions.py] *)
Module Sessions.
Import Py GA Eff.

(** [get_sessions_for_property] (lines 6-33). *)
Definition get_sessions_for_property (V : vendor)
  (property_id start_date end_date : string) : M Z :=
  request <- run_report_request V (JStr property_id) (JStr start_date) (JStr end_date) ;;
  response <- run_report V DefaultCreds request ;;
  if negb (match rows response with [] => false | _ => true end) then ret 0%Z
  else row <- py_index (rows response) 0 ;;
       mv <- py_index (metric_values row) 0 ;;
       py_int (mv_value mv).

(** [main] (lines 36-57); the value of the run is the object that is
    printed with [json.dumps(result, indent=2)]. *)
Definition main (V : vendor) : M json :=
  let property_id := "182279779" in
  let start_date := "30daysAgo" in
  let end_date := "today" in
  total_sessions <- get_sessions_for_property V property_id start_date end_date ;;
  ret (JObj [("propertyId", JStr property_id);
             ("dateRange", JObj [("start_date", JStr start_date);
                                 ("end_date", JStr end_date)]);
             ("metrics", JObj [("sessions", JInt total_sessions)])]).

End Sessions.

(** ** [accounts.py] *)
Module Accounts.
Import Py GA Eff.

(** [main] (lines 4-27); the value of the run is the object that is
    printed with [json.dumps({"accounts": accounts_data}, indent=2)]. *)
Definition main (V : vendor) : M json :=
  summaries <- list_account_summaries V DefaultCreds ;;
  accounts_data <- Listing.accounts_data summaries ;;
  ret (JObj [("accounts", JList accounts_data)]).

End Accounts.

(** * Vocabulary of the statements *)
Module Spec.
Import Py GA Eff Http.

(** The [Authorization] header as the handlers read it. *)
Definition auth_header (req : request) : string :=
  headers_get (req_headers req) "Authorization" EmptyString.

(** [Some rest] when [s = p ++ rest]. *)
Fixpoint drop_prefix (p s : string) : option string :=
  match p, s with
  | EmptyString, _ => Some s
  | String a p', String b s' => if Ascii.eqb a b then drop_prefix p' s' else None
  | String _ _, EmptyString => None
  end.

(** A valid bearer header: it starts with ["Bearer "] and the token after
    it is not empty once whitespace is stripped. *)
Definition valid_bearer (h : string) : bool :=
  match drop_prefix "Bearer " h with
  | Some token => negb (String.eqb (strip token) EmptyString)
  | None => false
  end.

(** The token the handlers extract from a valid bearer header. *)
Definition bearer_token (req : request) : string :=
  match drop_prefix "Bearer " (auth_header req) with
  | Some token => strip token
  | None => EmptyString
  end.

(** Where the three parameters come from: the query string, and the JSON
    body only when [property_id] is falsy in the query string. *)
Definition resolved_params (req : request) : outcome (json * json * json) :=
  let pid := args_param req "property_id" in
  let sd := args_param req "start_date" in
  let ed := args_param req "end_date" in
  if truthy pid then Ok (pid, sd, ed)
  else match json_or_empty req with
       | JObj o => Ok (py_or pid (dict_lookup o "property_id"),
                       py_or sd (dict_lookup o "start_date"),
                       py_or ed (dict_lookup o "end_date"))
       | d => Raise (AttributeError
                ("'" ++ type_name d ++ "' object has no attribute 'get'"))
       end.

(** A resolved date the request can be built from: falsy (the default
    string applies) or a string. *)
Definition date_ok (v : json) : bool :=
  negb (truthy v) || match v with JStr _ => true | _ => false end.

Definition dates_ok (sd ed : json) : bool := date_ok sd && date_ok ed.

(** The [RunReportRequest] the sessions handlers build from the resolved
    parameters, with the date defaults applied, when [dates_ok sd ed]. *)
Definition report_request (pid sd ed : json) : RunReportRequest :=
  {| rr_property_id := pid; rr_metrics := ["sessions"];
     rr_date_ranges := [(py_or sd (JStr "30daysAgo"), py_or ed (JStr "today"))] |}.

(** The exception building that request raises otherwise. *)
Definition report_error (V : vendor) (sd ed : json) : exn :=
  v_request_error V (py_or sd (JStr "30daysAgo")) (py_or ed (JStr "today")).

(** The session count read from a [run_report] response. *)
Definition total_sessions_of (resp : RunReportResponse) : outcome Z :=
  match rows resp with
  | [] => Ok 0%Z
  | row :: _ =>
      match metric_values row with
      | [] => Raise (IndexError "list index out of range")
      | mv :: _ => int_value (mv_value mv)
      end
  end.

Definition sessions_result (pid sd ed : json) (n : Z) : json :=
  JObj [("propertyId", pid);
        ("dateRange", JObj [("start_date", sd); ("end_date", ed)]);
        ("metrics", JObj [("sessions", JInt n)])].

Definition missing_property_id : json :=
  JObj [("error", JStr "Missing required parameter: property_id")].

Definition readonly_scope : list string :=
  ["https://www.googleapis.com/auth/analytics.readonly"].

(** The post-call part of a sessions handler, once [run_report] answered. *)
Definition sessions_outcome (mk : json -> response) (pid sd ed : json)
  (r : outcome RunReportResponse) : outcome response :=
  match r with
  | Ok resp =>
      match total_sessions_of resp with
      | Ok n => Ok (mk (sessions_result pid (py_or sd (JStr "30daysAgo"))
                                        (py_or ed (JStr "today")) n))
      | Raise e => Raise e
      end
  | Raise e => Raise e
  end.

(** The date defaults, the request and the [run_report] call of a sessions
    handler, issued with credentials [c]; [mk] builds its 200 response. *)
Definition report_run (V : vendor) (c : credentials) (mk : json -> response)
  (pid sd ed : json) : M response :=
  if dates_ok sd ed then
    (sessions_outcome mk pid sd ed (v_run_report V c (report_request pid sd ed)),
     [VRunReport c (report_request pid sd ed)])
  else (Raise (report_error V sd ed), []).

(** What a sessions handler does once authorised: dispatch on the resolved
    parameters. *)
Definition params_dispatch (r : outcome (json * json * json))
  (report : json -> json -> json -> M response) (resp400 : response)
  : M response :=
  match r with
  | Raise e => (Raise e, [])
  | Ok (pid, sd, ed) => if truthy pid then report pid sd ed else (Ok resp400, [])
  end.

(** The reported count, passed through: what a sessions handler's outcome
    is, for a given [run_report] response. *)
Definition sessions_pass_through (o : outcome response) (resp : RunReportResponse)
  : Prop :=
  (rows resp = [] ->
     exists b, o = Ok b /\ resp_status b = 200%Z /\
               body_at b ["metrics"; "sessions"] = Some (JInt 0)) /\
  (forall row rest mv mvs n,
     rows resp = row :: rest -> metric_values row = mv :: mvs ->
     int_of_str (mv_value mv) = Some n ->
     exists b, o = Ok b /\ resp_status b = 200%Z /\
               body_at b ["metrics"; "sessions"] = Some (JInt n)) /\
  (forall row rest, rows resp = row :: rest -> metric_values row = [] ->
     exists e, o = Raise e) /\
  (forall row rest mv mvs,
     rows resp = row :: rest -> metric_values row = mv :: mvs ->
     int_of_str (mv_value mv) = None -> exists e, o = Raise e).

(** A run in which every [RunReportRequest] carries the default date range
    and every 200 body echoes it. *)
Definition defaults_used (run : M response) : Prop :=
  (forall c rq, In (VRunReport c rq) (snd run) ->
     rr_date_ranges rq = [(JStr "30daysAgo", JStr "today")]) /\
  (forall b, fst run = Ok b -> resp_status b = 200%Z ->
     body_at b ["dateRange"; "start_date"] = Some (JStr "30daysAgo") /\
     body_at b ["dateRange"; "end_date"] = Some (JStr "today")).

Fixpoint take_while {A} (p : A -> bool) (l : list A) : list A :=
  match l with
  | [] => []
  | x :: t => if p x then x :: take_while p t else []
  end.

Definition not_slash (c : ascii) : bool := negb (Ascii.eqb c "/").

(** The substring after the last ["/"] (the whole string when it has none). *)
Definition after_last_slash (s : string) : string :=
  string_of_list_ascii
    (rev (take_while not_slash (rev (list_ascii_of_string s)))).

Definition property_entry_ok (ps : PropertySummary) (e : json) : Prop :=
  e = JObj [("property", JStr (property ps));
            ("propertyId", JStr (after_last_slash (property ps)));
            ("displayName", JStr (ps_display_name ps))].

Definition account_entry_ok (s : AccountSummary) (e : json) : Prop :=
  exists props,
    e = JObj [("account", JStr (account s));
              ("displayName", JStr (as_display_name s));
              ("properties", JList props)] /\
    Forall2 property_entry_ok (property_summaries s) props.

(** A 200 listing of the summaries, in order. *)
Definition listing_ok (ss : list AccountSummary) (b : response) : Prop :=
  resp_status b = 200%Z /\
  exists entries, resp_body b = BJson (JObj [("accounts", JList entries)]) /\
    Forall2 account_entry_ok ss entries.

(** The entries the listing loop builds from the summaries. *)
Definition listing_entries (ss : list AccountSummary) : list json :=
  match fst (Listing.accounts_data ss) with
  | Ok es => es
  | Raise _ => []
  end.

(** The vendor answers [run_report] the same whatever the scopes attached
    to the user credentials. *)
Definition scope_insensitive (V : vendor) : Prop :=
  forall tok sc sc' rq,
    v_run_report V (UserCreds tok sc) rq = v_run_report V (UserCreds tok sc') rq.

(** How the outcomes of [main.ga4_property_sessions_oauth] ([o1]) and
    [main_oauth.ga4_property_sessions] ([o2]) relate: same status, same body
    except on 401 where both are [{"error": ...}], CORS headers against
    [Content-Type] only; or the same exception. *)
Definition oauth_variants_agree (o1 o2 : outcome response) : Prop :=
  match o1, o2 with
  | Ok b1, Ok b2 =>
      resp_status b1 = resp_status b2 /\
      (resp_status b1 <> 401%Z -> resp_body b1 = resp_body b2) /\
      (resp_status b1 = 401%Z ->
         exists m1 m2, resp_body b1 = BJson (JObj [("error", JStr m1)]) /\
                       resp_body b2 = BJson (JObj [("error", JStr m2)])) /\
      resp_headers b1 = Main.cors_headers /\
      resp_headers b2 = MainOauth.content_type
  | Raise e1, Raise e2 => e1 = e2
  | _, _ => False
  end.

(** ** Sample inputs *)

Definition sample_token_header : string := "Bearer ya29.token".

Definition sample_response : RunReportResponse :=
  {| rows := [{| metric_values := [{| mv_value := "5106379" |}] |}] |}.

Definition decimal_response : RunReportResponse :=
  {| rows := [{| metric_values := [{| mv_value := "12.5" |}] |}] |}.

Definition sample_summaries : list AccountSummary :=
  [{| account := "accounts/52835573"; as_display_name := "App Regina Maria";
      property_summaries :=
        [{| property := "properties/182279779";
            ps_display_name := "GA4_web+contweb+shop+app" |}] |}].

Definition sample_vendor : vendor :=
  {| v_run_report := fun _ _ => Ok sample_response;
     v_list_account_summaries := fun _ => Ok sample_summaries;
     v_request_error := fun _ _ => TypeError "bad argument type for built-in operation" |}.

Definition decimal_vendor : vendor :=
  {| v_run_report := fun _ _ => Ok decimal_response;
     v_list_account_summaries := fun _ => Ok sample_summaries;
     v_request_error := fun _ _ => TypeError "bad argument type for built-in operation" |}.

Definition failing_vendor : vendor :=
  {| v_run_report := fun _ _ => Raise (VendorError "403 PERMISSION_DENIED");
     v_list_account_summaries := fun _ => Raise (VendorError "403 PERMISSION_DENIED");
     v_request_error := fun _ _ => TypeError "bad argument type for built-in operation" |}.

(** [GET ?property_id=182279779] with a bearer token. *)
Definition sample_request : request :=
  {| req_method := "GET";
     req_headers := [("Authorization", sample_token_header)];
     req_args := [("property_id", "182279779")];
     req_get_json := None |}.

(** [POST] with the property id in the JSON body only. *)
Definition body_request : request :=
  {| req_method := "POST";
     req_headers := [("Authorization", sample_token_header)];
     req_args := [];
     req_get_json := Some (JObj [("property_id", JStr "182279779")]) |}.

(** The property id in the query string, the dates in the JSON body. *)
Definition query_and_body_request : request :=
  {| req_method := "POST";
     req_headers := [("Authorization", sample_token_header)];
     req_args := [("property_id", "182279779")];
     req_get_json := Some (JObj [("start_date", JStr "2025-12-01");
                                 ("end_date", JStr "2025-12-15")]) |}.

(** A [GET] with no header, no query string and no body. *)
Definition anonymous_request : request :=
  {| req_method := "GET"; req_headers := []; req_args := [];
     req_get_json := None |}.

(** A bearer request whose JSON body gives the start date as a number. *)
Definition numeric_date_request : request :=
  {| req_method := "POST";
     req_headers := [("Authorization", sample_token_header)];
     req_args := [];
     req_get_json := Some (JObj [("property_id", JStr "182279779");
                                 ("start_date", JInt 20251201)]) |}.

(** A CORS preflight without any header. *)
Definition options_request : request :=
  {| req_method := "OPTIONS"; req_headers := []; req_args := [];
     req_get_json := None |}.

(** A bearer request without property id. *)
Definition no_property_request : request :=
  {| req_method := "GET";
     req_headers := [("Authorization", sample_token_header)];
     req_args := [("start_date", "7daysAgo")];
     req_get_json := None |}.

(** A stand-in for [traceback.format_exc()]. *)
Definition sample_format_exc (e : exn) : string :=
  "Traceback (most recent call last): " ++ str_exn e.

End Spec.

(** * Properties *)
(** * Vocabulary of the further properties *)
Module More.
Import Py GA Eff Http.

(** A string made of whitespace only ([str.isspace] on each character). *)
Definition all_space (s : string) : bool :=
  forallb py_isspace (list_ascii_of_string s).

(** A string made of the whitespace [int()] skips around a number. *)
Definition all_int_space (s : string) : bool :=
  forallb int_space (list_ascii_of_string s).

Definition has_char (c : ascii) (s : string) : bool :=
  existsb (fun x => Ascii.eqb x c) (list_ascii_of_string s).

(** The credentials an SDK call was issued with. *)
Definition vcall_creds (c : vcall) : credentials :=
  match c with
  | VRunReport cr _ => cr
  | VListAccountSummaries cr => cr
  end.

(** The same request with another JSON body. *)
Definition with_json (req : request) (j : option json) : request :=
  {| req_method := req_method req; req_headers := req_headers req;
     req_args := req_args req; req_get_json := j |}.

(** [GET ?property_id=..&start_date=..&end_date=..] without headers. *)
Definition query_request (pid sd ed : string) : request :=
  {| req_method := "GET"; req_headers := [];
     req_args := [("property_id", pid); ("start_date", sd); ("end_date", ed)];
     req_get_json := None |}.

(** The [RunReportRequest] of [get_sessions_for_property]. *)
Definition sessions_request (pid sd ed : string) : RunReportRequest :=
  {| rr_property_id := JStr pid; rr_metrics := ["sessions"];
     rr_date_ranges := [(JStr sd, JStr ed)] |}.

(** A vendor whose report has one row with the given metric value. *)
Definition value_vendor (v : string) : vendor :=
  {| v_run_report := fun _ _ =>
       Ok {| rows := [{| metric_values := [{| mv_value := v |}] |}] |};
     v_list_account_summaries := fun _ => Ok [];
     v_request_error := fun _ _ => TypeError "bad argument type for built-in operation" |}.

(** A bearer request whose JSON body is a list and whose query string has
    no property id. *)
Definition list_body_request : request :=
  {| req_method := "POST";
     req_headers := [("Authorization", "Bearer ya29.token")];
     req_args := [];
     req_get_json := Some (JList [JStr "182279779"]) |}.

End More.

Module Theory.
Import Py GA Eff Http Spec.

(** ** Monad and string lemmas *)

Lemma bind_ret {A B} (a : A) (f : A -> M B) : bind (ret a) f = f a.
Proof. unfold bind, ret. destruct (f a). reflexivity. Qed.

Lemma bind_ok_nil {A B} (a : A) (f : A -> M B) : bind (Ok a, []) f = f a.
Proof. apply bind_ret. Qed.

Lemma bind_nil {A B} (o : outcome A) (f : A -> M B) :
  bind (o, []) f = match o with Ok a => f a | Raise e => (Raise e, []) end.
Proof. destruct o as [a|e]; [apply bind_ret|reflexivity]. Qed.

Lemma bind_raise {A B} (e : exn) l (f : A -> M B) : bind (Raise e, l) f = (Raise e, l).
Proof. reflexivity. Qed.

Lemma drop_prefix_prefix (p s : string) :
  String.prefix p s = match drop_prefix p s with Some _ => true | None => false end.
Proof.
  revert s; induction p as [|a p IH]; intros [|b s]; simpl; try reflexivity.
  destruct (ascii_dec a b) as [<-|Hne].
  - rewrite Ascii.eqb_refl. apply IH.
  - destruct (Ascii.eqb a b) eqn:E; [apply Ascii.eqb_eq in E; contradiction|reflexivity].
Qed.

Lemma drop_prefix_app (p s r : string) :
  drop_prefix p s = Some r -> s = (p ++ r)%string.
Proof.
  revert s; induction p as [|a p IH]; intros [|b s] H; simpl in *;
    try congruence.
  destruct (Ascii.eqb a b) eqn:E; [|discriminate].
  apply Ascii.eqb_eq in E; subst. f_equal. apply IH, H.
Qed.

(** The outcome of each file's [_get_user_credentials_from_request]. *)
Lemma oauth_credentials_cases (req : request) :
  (valid_bearer (auth_header req) = false /\
   exists msg, MainOauth.get_user_credentials_from_request req = (Raise (ValueError msg), [])) \/
  (valid_bearer (auth_header req) = true /\
   MainOauth.get_user_credentials_from_request req =
     (Ok (UserCreds (bearer_token req) [], bearer_token req), [])).
Proof.
  unfold MainOauth.get_user_credentials_from_request, valid_bearer.
  fold (auth_header req). rewrite drop_prefix_prefix. unfold bearer_token.
  destruct (drop_prefix "Bearer " (auth_header req)) as [r|] eqn:E.
  - apply drop_prefix_app in E. rewrite E. simpl.
    destruct (String.eqb (strip r) EmptyString); simpl.
    + left. split; [reflexivity|eexists; reflexivity].
    + right. split; reflexivity.
  - left. split; [reflexivity|eexists; reflexivity].
Qed.

Lemma main_credentials_cases (req : request) :
  (valid_bearer (auth_header req) = false /\
   exists msg, Main.get_user_credentials_from_request req = (Raise (ValueError msg), [])) \/
  (valid_bearer (auth_header req) = true /\
   Main.get_user_credentials_from_request req =
     (Ok (UserCreds (bearer_token req)
            ["https://www.googleapis.com/auth/analytics.readonly"], bearer_token req), [])).
Proof.
  unfold Main.get_user_credentials_from_request, valid_bearer.
  fold (auth_header req). rewrite drop_prefix_prefix. unfold bearer_token.
  destruct (drop_prefix "Bearer " (auth_header req)) as [r|] eqn:E.
  - apply drop_prefix_app in E. rewrite E. simpl.
    destruct (String.eqb (strip r) EmptyString); simpl.
    + left. split; [reflexivity|eexists; reflexivity].
    + right. split; reflexivity.
  - left. split; [reflexivity|eexists; reflexivity].
Qed.

Lemma oauth_authenticate_cases (req : request) :
  (valid_bearer (auth_header req) = false /\
   exists msg, MainOauth.authenticate req =
     (Ok (inr (MainOauth.json_response (JObj [("error", JStr msg)]) 401)), [])) \/
  (valid_bearer (auth_header req) = true /\
   MainOauth.authenticate req =
     (Ok (inl (UserCreds (bearer_token req) [], bearer_token req)), [])).
Proof.
  unfold MainOauth.authenticate.
  destruct (oauth_credentials_cases req) as [[Hv [msg Hc]]|[Hv Hc]];
    rewrite Hc; simpl; [left|right]; split; auto; eexists; reflexivity.
Qed.

Lemma main_authenticate_cases (req : request) :
  (valid_bearer (auth_header req) = false /\
   exists msg, Main.authenticate req =
     (Ok (inr (Main.json_response (JObj [("error", JStr msg)]) 401)), [])) \/
  (valid_bearer (auth_header req) = true /\
   Main.authenticate req =
     (Ok (inl (UserCreds (bearer_token req) readonly_scope, bearer_token req)), [])).
Proof.
  unfold Main.authenticate.
  destruct (main_credentials_cases req) as [[Hv [msg Hc]]|[Hv Hc]];
    rewrite Hc; simpl; [left|right]; split; auto; eexists; reflexivity.
Qed.

(** The parameter blocks of the three files agree with [resolved_params]. *)
Ltac params_crunch :=
  match goal with
  | |- context [truthy ?x] =>
      let E := fresh "E" in destruct (truthy x) eqn:E; simpl; try reflexivity
  end.

Lemma oauth_read_params (req : request) :
  MainOauth.read_params req = (resolved_params req, []).
Proof.
  unfold MainOauth.read_params, resolved_params, py_or_m, py_or.
  destruct (truthy (args_param req "property_id")); simpl; [reflexivity|].
  destruct (json_or_empty req); simpl; try reflexivity;
    repeat params_crunch.
Qed.

Lemma main_read_params (req : request) :
  Main.read_params req = (resolved_params req, []).
Proof.
  unfold Main.read_params, resolved_params, py_or_m, py_or.
  destruct (truthy (args_param req "property_id")); simpl; [reflexivity|].
  destruct (json_or_empty req); simpl; try reflexivity;
    repeat params_crunch.
Qed.

Lemma old_read_params (req : request) :
  MainOld.read_params req = (resolved_params req, []).
Proof.
  unfold MainOld.read_params, resolved_params, py_or_m, py_or.
  destruct (truthy (args_param req "property_id")); simpl; [reflexivity|].
  destruct (json_or_empty req); simpl; try reflexivity;
    repeat params_crunch.
Qed.

Ltac report_crunch :=
  repeat match goal with
  | |- context [match v_run_report ?V ?c ?r with _ => _ end] =>
      destruct (v_run_report V c r) as [?resp|?e]; simpl; try reflexivity
  | |- context [match rows ?x with _ => _ end] =>
      destruct (rows x) as [|?row ?rest]; simpl; try reflexivity
  | |- context [match metric_values ?x with _ => _ end] =>
      destruct (metric_values x) as [|?mv ?mvs]; simpl; try reflexivity
  | |- context [match int_value ?s with _ => _ end] =>
      destruct (int_value s); simpl; try reflexivity
  end.

Lemma str_field_default v d :
  str_field_ok (py_or v (JStr d)) = date_ok v.
Proof.
  unfold py_or, date_ok.
  destruct v as [|b|z|s|l|o]; simpl; try reflexivity.
  - destruct b; reflexivity.
  - destruct (Z.eqb z 0); reflexivity.
  - destruct s; reflexivity.
  - destruct l; reflexivity.
  - destruct o; reflexivity.
Qed.

Lemma if_negb_truthy v d :
  (if negb (truthy v) then d else v) = py_or v d.
Proof. unfold py_or. destruct (truthy v); reflexivity. Qed.

Lemma dates_ok_falsy sd ed :
  truthy sd = false -> truthy ed = false -> dates_ok sd ed = true.
Proof. intros Hs He. unfold dates_ok, date_ok. rewrite Hs, He. reflexivity. Qed.

Ltac sessions_report_tac :=
  unfold report_run, run_report_request, dates_ok, report_error, report_request,
    sessions_outcome, run_report, total_sessions_of, py_int;
  rewrite ?if_negb_truthy, !str_field_default;
  match goal with
  | |- context [date_ok ?sd && date_ok ?ed] =>
      destruct (date_ok sd && date_ok ed); simpl; [report_crunch|reflexivity]
  end.

Lemma oauth_sessions_report V c pid sd ed :
  MainOauth.sessions_report V c pid sd ed =
  report_run V c (fun j => MainOauth.json_response j 200) pid sd ed.
Proof. unfold MainOauth.sessions_report. sessions_report_tac. Qed.

Lemma main_sessions_report V c pid sd ed :
  Main.sessions_report V c pid sd ed =
  report_run V c (fun j => Main.json_response j 200) pid sd ed.
Proof. unfold Main.sessions_report. sessions_report_tac. Qed.

Lemma old_sessions_report V pid sd ed :
  MainOld.sessions_report V pid sd ed =
  report_run V DefaultCreds (fun j => MainOld.json_response j 200) pid sd ed.
Proof. unfold MainOld.sessions_report. sessions_report_tac. Qed.

Lemma oauth_sessions_cases V req :
  (valid_bearer (auth_header req) = false /\
   exists msg, MainOauth.ga4_property_sessions V req =
     (Ok (MainOauth.json_response (JObj [("error", JStr msg)]) 401), [])) \/
  (valid_bearer (auth_header req) = true /\
   MainOauth.ga4_property_sessions V req =
     params_dispatch (resolved_params req)
       (MainOauth.sessions_report V (UserCreds (bearer_token req) []))
       (MainOauth.json_response missing_property_id 400)).
Proof.
  unfold MainOauth.ga4_property_sessions.
  destruct (oauth_authenticate_cases req) as [[Hv [msg Ha]]|[Hv Ha]];
    rewrite Ha, bind_ok_nil.
  - left. split; [exact Hv|]. exists msg. reflexivity.
  - right. split; [exact Hv|]. cbv beta iota.
    rewrite oauth_read_params, bind_nil.
    destruct (resolved_params req) as [[[p s] e]|e]; [|reflexivity].
    unfold params_dispatch; destruct (truthy p); reflexivity.
Qed.

Lemma main_sessions_cases V req :
  (req_method req = "OPTIONS" /\
   Main.ga4_property_sessions_oauth V req = (Ok Main.preflight_response, [])) \/
  (req_method req <> "OPTIONS" /\ valid_bearer (auth_header req) = false /\
   exists msg, Main.ga4_property_sessions_oauth V req =
     (Ok (Main.json_response (JObj [("error", JStr msg)]) 401), [])) \/
  (req_method req <> "OPTIONS" /\ valid_bearer (auth_header req) = true /\
   Main.ga4_property_sessions_oauth V req =
     params_dispatch (resolved_params req)
       (Main.sessions_report V (UserCreds (bearer_token req) readonly_scope))
       (Main.json_response missing_property_id 400)).
Proof.
  unfold Main.ga4_property_sessions_oauth, Main.handle_preflight.
  destruct (String.eqb (req_method req) "OPTIONS") eqn:Em.
  { left. apply String.eqb_eq in Em. split; [exact Em|reflexivity]. }
  apply String.eqb_neq in Em. right.
  destruct (main_authenticate_cases req) as [[Hv [msg Ha]]|[Hv Ha]];
    rewrite Ha, bind_ok_nil.
  - left. split; [exact Em|]. split; [exact Hv|]. exists msg. reflexivity.
  - right. split; [exact Em|]. split; [exact Hv|]. cbv beta iota.
    rewrite main_read_params, bind_nil.
    destruct (resolved_params req) as [[[p s] e]|e]; [|reflexivity].
    unfold params_dispatch; destruct (truthy p); reflexivity.
Qed.

Lemma old_sessions_eq V req :
  MainOld.ga4_property_sessions V req =
  params_dispatch (resolved_params req) (MainOld.sessions_report V)
    (MainOld.json_response missing_property_id 400).
Proof.
  unfold MainOld.ga4_property_sessions.
  rewrite old_read_params, bind_nil.
  destruct (resolved_params req) as [[[p s] e]|e]; [|reflexivity].
  unfold params_dispatch; destruct (truthy p); reflexivity.
Qed.

Lemma int_of_str_some s n : int_of_str s = Some n -> int_value s = Ok n.
Proof. unfold int_of_str. destruct (int_value s); congruence. Qed.

Lemma int_of_str_none s : int_of_str s = None -> exists e, int_value s = Raise e.
Proof. unfold int_of_str. destruct (int_value s); [discriminate|eauto]. Qed.

Lemma sessions_outcome_pass (mk : json -> response) pid sd ed resp :
  (forall j, resp_status (mk j) = 200%Z /\ resp_body (mk j) = BJson j) ->
  sessions_pass_through (sessions_outcome mk pid sd ed (Ok resp)) resp.
Proof.
  intros Hmk. unfold sessions_outcome, total_sessions_of, sessions_pass_through.
  repeat split.
  - intros Hr. rewrite Hr. eexists; split; [reflexivity|].
    destruct (Hmk (sessions_result pid (py_or sd (JStr "30daysAgo"))
                     (py_or ed (JStr "today")) 0)) as [Hs Hb].
    split; [exact Hs|]. unfold body_at. rewrite Hb. reflexivity.
  - intros row rest mv mvs n Hr Hm Hn. apply int_of_str_some in Hn.
    rewrite Hr, Hm, Hn.
    eexists; split; [reflexivity|].
    destruct (Hmk (sessions_result pid (py_or sd (JStr "30daysAgo"))
                     (py_or ed (JStr "today")) n)) as [Hs Hb].
    split; [exact Hs|]. unfold body_at. rewrite Hb. reflexivity.
  - intros row rest Hr Hm. rewrite Hr, Hm. eexists; reflexivity.
  - intros row rest mv mvs Hr Hm Hn. apply int_of_str_none in Hn as [e Hn].
    rewrite Hr, Hm, Hn. eexists; reflexivity.
Qed.

(** When the only vendor call of a dispatched handler is [run_report c rq],
    its outcome is the post-call part on the vendor's answer to that call. *)
Lemma dispatch_called V (c0 : credentials) (mk : json -> response)
  (report : json -> json -> json -> M response) r resp400 o c rq :
  (forall pid sd ed, report pid sd ed = report_run V c0 mk pid sd ed) ->
  params_dispatch r report resp400 = (o, [VRunReport c rq]) ->
  c = c0 /\ exists pid sd ed, r = Ok (pid, sd, ed) /\ truthy pid = true /\
    dates_ok sd ed = true /\ rq = report_request pid sd ed /\
    o = sessions_outcome mk pid sd ed (v_run_report V c rq).
Proof.
  intros Hrep H. unfold params_dispatch in H.
  destruct r as [[[pid sd] ed]|e]; [|discriminate].
  destruct (truthy pid) eqn:Ep; [|discriminate].
  rewrite Hrep in H. unfold report_run in H.
  destruct (dates_ok sd ed) eqn:Ed; [|discriminate].
  injection H as Ho Hc Hq. subst.
  split; [reflexivity|]. exists pid, sd, ed. auto.
Qed.

(** Every sessions handler's [(outcome, log)] when [run_report] was called. *)
Lemma sessions_handlers_called V req c rq :
  (forall o, MainOauth.ga4_property_sessions V req = (o, [VRunReport c rq]) ->
   exists pid sd ed, resolved_params req = Ok (pid, sd, ed) /\ truthy pid = true /\
     valid_bearer (auth_header req) = true /\ rq = report_request pid sd ed /\
     o = sessions_outcome (fun j => MainOauth.json_response j 200) pid sd ed
           (v_run_report V c rq)) /\
  (forall o, Main.ga4_property_sessions_oauth V req = (o, [VRunReport c rq]) ->
   exists pid sd ed, resolved_params req = Ok (pid, sd, ed) /\ truthy pid = true /\
     valid_bearer (auth_header req) = true /\ rq = report_request pid sd ed /\
     o = sessions_outcome (fun j => Main.json_response j 200) pid sd ed
           (v_run_report V c rq)) /\
  (forall o, MainOld.ga4_property_sessions V req = (o, [VRunReport c rq]) ->
   c = DefaultCreds /\
   exists pid sd ed, resolved_params req = Ok (pid, sd, ed) /\ truthy pid = true /\
     rq = report_request pid sd ed /\
     o = sessions_outcome (fun j => MainOld.json_response j 200) pid sd ed
           (v_run_report V c rq)).
Proof.
  split; [|split].
  - intros o H.
    destruct (oauth_sessions_cases V req) as [[Hv [msg Hh]]|[Hv Hh]];
      rewrite Hh in H; [discriminate|].
    apply dispatch_called with (V := V) (c0 := UserCreds (bearer_token req) [])
      (mk := fun j => MainOauth.json_response j 200) in H;
      [|intros; apply oauth_sessions_report].
    destruct H as [_ [pid [sd [ed [Hr [Hp [_ [Hq Ho]]]]]]]].
    exists pid, sd, ed. auto.
  - intros o H.
    destruct (main_sessions_cases V req)
      as [[Hm Hh]|[[Hm [Hv [msg Hh]]]|[Hm [Hv Hh]]]];
      rewrite Hh in H; try discriminate.
    apply dispatch_called with (V := V) (c0 := UserCreds (bearer_token req) readonly_scope)
      (mk := fun j => Main.json_response j 200) in H;
      [|intros; apply main_sessions_report].
    destruct H as [_ [pid [sd [ed [Hr [Hp [_ [Hq Ho]]]]]]]].
    exists pid, sd, ed. auto.
  - intros o H. rewrite old_sessions_eq in H.
    apply dispatch_called with (V := V) (c0 := DefaultCreds)
      (mk := fun j => MainOld.json_response j 200) in H;
      [|intros; apply old_sessions_report].
    destruct H as [Hc [pid [sd [ed [Hr [Hp [_ [Hq Ho]]]]]]]].
    split; [exact Hc|]. exists pid, sd, ed. auto.
Qed.

Lemma dispatch_shape V (c0 : credentials) (mk : json -> response)
  (report : json -> json -> json -> M response) r resp400 o l :
  (forall pid sd ed, report pid sd ed = report_run V c0 mk pid sd ed) ->
  params_dispatch r report resp400 = (o, l) ->
  (l = [] /\ (o = Ok resp400 \/ exists e, o = Raise e)) \/
  (exists pid sd ed, r = Ok (pid, sd, ed) /\ truthy pid = true /\
     dates_ok sd ed = true /\
     l = [VRunReport c0 (report_request pid sd ed)] /\
     o = sessions_outcome mk pid sd ed (v_run_report V c0 (report_request pid sd ed))).
Proof.
  intros Hrep H. unfold params_dispatch in H.
  destruct r as [[[pid sd] ed]|e].
  - destruct (truthy pid) eqn:Ep.
    + rewrite Hrep in H. unfold report_run in H.
      destruct (dates_ok sd ed) eqn:Ed.
      * right. injection H as <- <-. exists pid, sd, ed. auto.
      * left. injection H as <- <-. split; [reflexivity|]. right. eexists; reflexivity.
    + left. injection H as <- <-. auto.
  - left. injection H as <- <-. split; [reflexivity|]. right. eexists; reflexivity.
Qed.

Lemma sessions_outcome_ok (mk : json -> response) pid sd ed r b :
  sessions_outcome mk pid sd ed r = Ok b ->
  exists n, b = mk (sessions_result pid (py_or sd (JStr "30daysAgo"))
                                    (py_or ed (JStr "today")) n).
Proof.
  unfold sessions_outcome. destruct r as [resp|e]; [|discriminate].
  destruct (total_sessions_of resp) as [n|e]; [|discriminate].
  intros H. injection H as <-. exists n. reflexivity.
Qed.

Lemma dispatch_defaults V (c0 : credentials) (mk : json -> response)
  (report : json -> json -> json -> M response) r resp400 :
  (forall pid sd ed, report pid sd ed = report_run V c0 mk pid sd ed) ->
  (forall j, resp_status (mk j) = 200%Z /\ resp_body (mk j) = BJson j) ->
  resp_status resp400 <> 200%Z ->
  (forall pid sd ed, r = Ok (pid, sd, ed) -> truthy sd = false /\ truthy ed = false) ->
  defaults_used (params_dispatch r report resp400).
Proof.
  intros Hrep Hmk H400 Hdates.
  destruct (params_dispatch r report resp400) as [o l] eqn:Hd.
  apply dispatch_shape with (V := V) (c0 := c0) (mk := mk) in Hd; [|exact Hrep].
  unfold defaults_used; simpl.
  destruct Hd as [[-> [-> | [e ->]]]
                 |[pid [sd [ed [Hr [Hp [_ [-> ->]]]]]]]].
  - split; [intros c rq []|]. intros b Hb Hs. injection Hb as <-. contradiction.
  - split; [intros c rq []|]. discriminate.
  - destruct (Hdates pid sd ed Hr) as [Hs He].
    assert (Hps : py_or sd (JStr "30daysAgo") = JStr "30daysAgo")
      by (unfold py_or; rewrite Hs; reflexivity).
    assert (Hpe : py_or ed (JStr "today") = JStr "today")
      by (unfold py_or; rewrite He; reflexivity).
    split.
    + intros c rq [Hin|[]]. injection Hin as _ <-.
      unfold report_request; simpl. rewrite Hps, Hpe. reflexivity.
    + intros b Hb _. apply sessions_outcome_ok in Hb as [n ->].
      destruct (Hmk (sessions_result pid (py_or sd (JStr "30daysAgo"))
                       (py_or ed (JStr "today")) n)) as [_ Hbody].
      unfold body_at. rewrite Hbody, Hps, Hpe. split; reflexivity.
Qed.

(** ** The account listing *)

Lemma take_while_app {A} (p : A -> bool) (l m : list A) :
  take_while p (l ++ m)%list =
  if forallb p l then (l ++ take_while p m)%list else take_while p l.
Proof.
  induction l as [|x l IH]; simpl; [reflexivity|].
  destruct (p x); simpl; [|reflexivity].
  rewrite IH. destruct (forallb p l); reflexivity.
Qed.

Lemma forallb_rev {A} (p : A -> bool) (l : list A) :
  forallb p (rev l) = forallb p l.
Proof.
  induction l as [|x l IH]; simpl; [reflexivity|].
  rewrite forallb_app, IH; simpl. rewrite andb_true_r, andb_comm. reflexivity.
Qed.

Lemma after_last_slash_cons (c : ascii) (s : string) :
  after_last_slash (String c s) =
  if forallb not_slash (list_ascii_of_string s)
  then (if not_slash c then String c s else s)
  else after_last_slash s.
Proof.
  unfold after_last_slash. simpl.
  rewrite take_while_app, forallb_rev.
  destruct (forallb not_slash (list_ascii_of_string s)); [|reflexivity].
  simpl. destruct (not_slash c); simpl.
  - rewrite rev_app_distr, rev_involutive. simpl.
    rewrite string_of_list_ascii_of_string. reflexivity.
  - rewrite app_nil_r, rev_involutive, string_of_list_ascii_of_string.
    reflexivity.
Qed.

Lemma split_slash_shape (s : string) :
  (forallb not_slash (list_ascii_of_string s) = true /\
   split "/" s = [s] /\ after_last_slash s = s) \/
  (forallb not_slash (list_ascii_of_string s) = false /\
   exists h i, split "/" s = (h :: i ++ [after_last_slash s])%list).
Proof.
  induction s as [|c s IH].
  - left. auto.
  - rewrite after_last_slash_cons. simpl.
    destruct (Ascii.eqb c "/") eqn:Ec;
      assert (Hn : not_slash c = negb (Ascii.eqb c "/")) by reflexivity;
      rewrite Ec in Hn; simpl in Hn; rewrite Hn; simpl.
    + right. split; [reflexivity|].
      destruct IH as [[Hf [Hs Ha]]|[Hf [h [i Hs]]]]; rewrite Hf.
      * exists EmptyString, []. rewrite Hs. reflexivity.
      * exists EmptyString, (h :: i). rewrite Hs. reflexivity.
    + destruct IH as [[Hf [Hs Ha]]|[Hf [h [i Hs]]]]; rewrite Hf.
      * left. rewrite Hs. auto.
      * right. split; [reflexivity|]. rewrite Hs.
        exists (String c h), i. reflexivity.
Qed.

(** [prop_summary.property.split("/")[-1]] is the substring after the last
    ["/"]. *)
Lemma split_last_slash (s : string) :
  py_index_last (split "/" s) = ret (after_last_slash s).
Proof.
  unfold py_index_last.
  destruct (split_slash_shape s) as [[_ [Hs Ha]]|[_ [h [i Hs]]]];
    rewrite Hs; simpl.
  - rewrite Ha. reflexivity.
  - rewrite rev_app_distr. reflexivity.
Qed.

Lemma mapM_ok {A B} (f : A -> M B) (R : A -> B -> Prop) (l : list A) :
  (forall x, exists y, f x = (Ok y, []) /\ R x y) ->
  exists ys, mapM f l = (Ok ys, []) /\ Forall2 R l ys.
Proof.
  intros Hf. induction l as [|x l IH]; simpl.
  - exists []. auto.
  - destruct (Hf x) as [y [Hy Hr]]. destruct IH as [ys [Hys Hrs]].
    exists (y :: ys). rewrite Hy, bind_ok_nil, Hys, bind_ok_nil. auto.
Qed.

Lemma accounts_data_ok (ss : list AccountSummary) :
  exists entries, Listing.accounts_data ss = (Ok entries, []) /\
    Forall2 account_entry_ok ss entries.
Proof.
  apply mapM_ok. intros s. unfold Listing.account_entry.
  destruct (mapM_ok Listing.property_entry property_entry_ok
              (property_summaries s)) as [props [Hp Hr]].
  { intros ps. unfold Listing.property_entry.
    rewrite split_last_slash, bind_ret. eexists; split; reflexivity. }
  rewrite Hp, bind_ok_nil. eexists; split; [reflexivity|].
  exists props. auto.
Qed.


Lemma bind_ok {A B} (a : A) l (f : A -> M B) :
  bind (Ok a, l) f = (fst (f a), (l ++ snd (f a))%list).
Proof. unfold bind. destruct (f a). reflexivity. Qed.

Lemma accounts_data_eq (ss : list AccountSummary) :
  Listing.accounts_data ss = (Ok (listing_entries ss), []) /\
  Forall2 account_entry_ok ss (listing_entries ss).
Proof.
  destruct (accounts_data_ok ss) as [es [He Hr]].
  unfold listing_entries. rewrite He. simpl. auto.
Qed.

(** The listing step shared by the three listing handlers. *)
Lemma listing_run V c (mk : list json -> response) :
  bind (list_account_summaries V c)
    (fun summaries => bind (Listing.accounts_data summaries)
                        (fun data => ret (mk data))) =
  (match v_list_account_summaries V c with
   | Ok ss => Ok (mk (listing_entries ss))
   | Raise e => Raise e
   end, [VListAccountSummaries c]).
Proof.
  unfold list_account_summaries.
  destruct (v_list_account_summaries V c) as [ss|e]; [|reflexivity].
  rewrite bind_ok. destruct (accounts_data_eq ss) as [He _].
  rewrite He, bind_ok_nil. reflexivity.
Qed.

Lemma listing_ok_mk (ss : list AccountSummary) (mk : json -> response) :
  (forall j, resp_status (mk j) = 200%Z /\ resp_body (mk j) = BJson j) ->
  listing_ok ss (mk (JObj [("accounts", JList (listing_entries ss))])).
Proof.
  intros Hmk. destruct (Hmk (JObj [("accounts", JList (listing_entries ss))]))
    as [Hs Hb].
  split; [exact Hs|]. exists (listing_entries ss). split; [exact Hb|].
  apply accounts_data_eq.
Qed.

(** The [run_report] call of each sessions handler, for resolved parameters
    with a truthy property id and dates a request can hold. *)
Lemma handlers_call_report V req pid sd ed :
  resolved_params req = Ok (pid, sd, ed) -> truthy pid = true ->
  dates_ok sd ed = true ->
  snd (MainOld.ga4_property_sessions V req) =
    [VRunReport DefaultCreds (report_request pid sd ed)] /\
  (valid_bearer (auth_header req) = true ->
   snd (MainOauth.ga4_property_sessions V req) =
     [VRunReport (UserCreds (bearer_token req) []) (report_request pid sd ed)]) /\
  (req_method req <> "OPTIONS" -> valid_bearer (auth_header req) = true ->
   snd (Main.ga4_property_sessions_oauth V req) =
     [VRunReport (UserCreds (bearer_token req) readonly_scope)
        (report_request pid sd ed)]).
Proof.
  intros Hr Hp Hd. split; [|split].
  - rewrite old_sessions_eq, Hr. unfold params_dispatch.
    rewrite Hp, old_sessions_report. unfold report_run. rewrite Hd. reflexivity.
  - intros Hv. destruct (oauth_sessions_cases V req) as [[Hv' _]|[_ Hh]];
      [congruence|].
    rewrite Hh, Hr. unfold params_dispatch.
    rewrite Hp, oauth_sessions_report. unfold report_run. rewrite Hd. reflexivity.
  - intros Hm Hv.
    destruct (main_sessions_cases V req)
      as [[Hm' _]|[[_ [Hv' _]]|[_ [_ Hh]]]]; [contradiction|congruence|].
    rewrite Hh, Hr. unfold params_dispatch.
    rewrite Hp, main_sessions_report. unfold report_run. rewrite Hd. reflexivity.
Qed.

(** A date the request cannot hold: each sessions handler raises while
    building the [RunReportRequest], before any vendor call. *)
Lemma handlers_request_error V req pid sd ed :
  resolved_params req = Ok (pid, sd, ed) -> truthy pid = true ->
  dates_ok sd ed = false ->
  MainOld.ga4_property_sessions V req = (Raise (report_error V sd ed), []) /\
  (valid_bearer (auth_header req) = true ->
   MainOauth.ga4_property_sessions V req = (Raise (report_error V sd ed), [])) /\
  (req_method req <> "OPTIONS" -> valid_bearer (auth_header req) = true ->
   Main.ga4_property_sessions_oauth V req = (Raise (report_error V sd ed), [])).
Proof.
  intros Hr Hp Hd. split; [|split].
  - rewrite old_sessions_eq, Hr. unfold params_dispatch.
    rewrite Hp, old_sessions_report. unfold report_run. rewrite Hd. reflexivity.
  - intros Hv. destruct (oauth_sessions_cases V req) as [[Hv' _]|[_ Hh]];
      [congruence|].
    rewrite Hh, Hr. unfold params_dispatch.
    rewrite Hp, oauth_sessions_report. unfold report_run. rewrite Hd. reflexivity.
  - intros Hm Hv.
    destruct (main_sessions_cases V req)
      as [[Hm' _]|[[_ [Hv' _]]|[_ [_ Hh]]]]; [contradiction|congruence|].
    rewrite Hh, Hr. unfold params_dispatch.
    rewrite Hp, main_sessions_report. unfold report_run. rewrite Hd. reflexivity.
Qed.

Lemma params_with_defaults (req : request) :
  (truthy (args_param req "property_id") = true \/
   exists o, json_or_empty req = JObj o /\
             truthy (dict_lookup o "property_id") = true) ->
  truthy (args_param req "start_date") = false ->
  truthy (args_param req "end_date") = false ->
  (forall o, json_or_empty req = JObj o ->
     truthy (dict_lookup o "start_date") = false /\
     truthy (dict_lookup o "end_date") = false) ->
  exists pid sd ed, resolved_params req = Ok (pid, sd, ed) /\
    truthy pid = true /\ truthy sd = false /\ truthy ed = false.
Proof.
  intros Hp Hs He Hb. unfold resolved_params.
  destruct (truthy (args_param req "property_id")) eqn:Ep.
  - eexists _, _, _. split; [reflexivity|]. auto.
  - destruct Hp as [Hp|[o [Ho Hpo]]]; [discriminate|]. rewrite Ho.
    destruct (Hb o Ho) as [Hs' He'].
    eexists _, _, _. split; [reflexivity|].
    unfold py_or. rewrite Ep, Hs, He. auto.
Qed.

Lemma defaults_used_early (b : response) :
  resp_status b <> 200%Z -> defaults_used (Ok b, []).
Proof.
  intros Hs. split; [intros c rq []|]. simpl.
  intros b' Hb Hs'. injection Hb as <-. contradiction.
Qed.

End Theory.

(** * The claims *)
Module Claims.
Import Py GA Eff Http Spec Theory.

(** ** C1 *)

(** C1 (amended).  Once a sessions handler ([main_oauth.ga4_property_sessions],
    [main.ga4_property_sessions_oauth], [main_old.ga4_property_sessions]) has
    issued its [run_report] call and the vendor answered [resp]: with no rows
    it returns 200 and [metrics.sessions = 0]; when the first metric value of
    the first row is an integer literal accepted by Python's [int()], it
    returns 200 and [metrics.sessions] is that integer; when the first row
    has no metric value, or its value is not an integer literal, it raises
    and returns no response. *)
Theorem sessions_count_pass_through V req c rq o resp :
  v_run_report V c rq = Ok resp ->
  (MainOauth.ga4_property_sessions V req = (o, [VRunReport c rq]) ->
   sessions_pass_through o resp) /\
  (Main.ga4_property_sessions_oauth V req = (o, [VRunReport c rq]) ->
   sessions_pass_through o resp) /\
  (MainOld.ga4_property_sessions V req = (o, [VRunReport c rq]) ->
   sessions_pass_through o resp).
Proof.
  intros Hv. destruct (sessions_handlers_called V req c rq) as [H1 [H2 H3]].
  split; [|split]; intros H.
  - destruct (H1 o H) as [pid [sd [ed [_ [_ [_ [_ ->]]]]]]].
    rewrite Hv. apply sessions_outcome_pass. intros j; split; reflexivity.
  - destruct (H2 o H) as [pid [sd [ed [_ [_ [_ [_ ->]]]]]]].
    rewrite Hv. apply sessions_outcome_pass. intros j; split; reflexivity.
  - destruct (H3 o H) as [_ [pid [sd [ed [_ [_ [_ ->]]]]]]].
    rewrite Hv. apply sessions_outcome_pass. intros j; split; reflexivity.
Qed.

Lemma sessions_count_pass_through_witness :
  v_run_report sample_vendor (UserCreds "ya29.token" [])
    (report_request (JStr "182279779") JNull JNull) = Ok sample_response /\
  sessions_pass_through
    (fst (MainOauth.ga4_property_sessions sample_vendor sample_request))
    sample_response.
Proof.
  split; [reflexivity|].
  apply (proj1 (sessions_count_pass_through sample_vendor sample_request
    (UserCreds "ya29.token" []) (report_request (JStr "182279779") JNull JNull)
    (fst (MainOauth.ga4_property_sessions sample_vendor sample_request))
    sample_response eq_refl)).
  vm_compute. reflexivity.
Defined.

(** C1 fails as stated: a vendor response whose first metric value is
    ["12.5"] makes [int()] raise, so the handler returns no 200 response. *)
Lemma sessions_count_non_integer :
  MainOauth.ga4_property_sessions decimal_vendor sample_request =
  (Raise (ValueError "invalid literal for int() with base 10: '12.5'"),
   [VRunReport (UserCreds "ya29.token" [])
      (report_request (JStr "182279779") JNull JNull)]).
Proof. vm_compute. reflexivity. Qed.

(** ** C2 *)

(** C2.  For a request that supplies [property_id] (truthy in the query
    string, or in the JSON body object) and neither [start_date] nor
    [end_date] (falsy in the query string and in the body), every
    [RunReportRequest] a sessions handler issues carries the date range
    ["30daysAgo"]..["today"], every 200 body echoes those two strings in
    [dateRange], and the call is issued once the request is authorised. *)
Theorem default_date_range V req :
  (truthy (args_param req "property_id") = true \/
   exists o, json_or_empty req = JObj o /\
             truthy (dict_lookup o "property_id") = true) ->
  truthy (args_param req "start_date") = false ->
  truthy (args_param req "end_date") = false ->
  (forall o, json_or_empty req = JObj o ->
     truthy (dict_lookup o "start_date") = false /\
     truthy (dict_lookup o "end_date") = false) ->
  defaults_used (MainOauth.ga4_property_sessions V req) /\
  defaults_used (Main.ga4_property_sessions_oauth V req) /\
  defaults_used (MainOld.ga4_property_sessions V req) /\
  (exists rq, snd (MainOld.ga4_property_sessions V req) =
              [VRunReport DefaultCreds rq]) /\
  (valid_bearer (auth_header req) = true ->
   exists rq, snd (MainOauth.ga4_property_sessions V req) =
              [VRunReport (UserCreds (bearer_token req) []) rq]) /\
  (req_method req <> "OPTIONS" -> valid_bearer (auth_header req) = true ->
   exists rq, snd (Main.ga4_property_sessions_oauth V req) =
              [VRunReport (UserCreds (bearer_token req) readonly_scope) rq]).
Proof.
  intros Hp Hs He Hb.
  destruct (params_with_defaults req Hp Hs He Hb)
    as [pid [sd [ed [Hr [Hpid [Hsd Hed]]]]]].
  assert (Hdates : forall p s e, resolved_params req = Ok (p, s, e) ->
                     truthy s = false /\ truthy e = false).
  { intros p s e H. rewrite Hr in H. injection H as <- <- <-. auto. }
  destruct (handlers_call_report V req pid sd ed Hr Hpid (dates_ok_falsy sd ed Hsd Hed))
    as [C1 [C2 C3]].
  split; [|split; [|split; [|split; [|split]]]].
  - destruct (oauth_sessions_cases V req) as [[_ [msg ->]]|[_ ->]].
    + apply defaults_used_early. discriminate.
    + eapply dispatch_defaults; [intros; apply oauth_sessions_report
                               |intros; split; reflexivity|discriminate|exact Hdates].
  - destruct (main_sessions_cases V req)
      as [[_ ->]|[[_ [_ [msg ->]]]|[_ [_ ->]]]].
    + apply defaults_used_early. discriminate.
    + apply defaults_used_early. discriminate.
    + eapply dispatch_defaults; [intros; apply main_sessions_report
                               |intros; split; reflexivity|discriminate|exact Hdates].
  - rewrite old_sessions_eq.
    eapply dispatch_defaults; [intros; apply old_sessions_report
                             |intros; split; reflexivity|discriminate|exact Hdates].
  - eexists. exact C1.
  - intros Hv. eexists. exact (C2 Hv).
  - intros Hm Hv. eexists. exact (C3 Hm Hv).
Qed.

Lemma default_date_range_witness :
  defaults_used (MainOauth.ga4_property_sessions sample_vendor body_request) /\
  snd (MainOauth.ga4_property_sessions sample_vendor body_request) =
    [VRunReport (UserCreds "ya29.token" [])
       {| rr_property_id := JStr "182279779"; rr_metrics := ["sessions"];
          rr_date_ranges := [(JStr "30daysAgo", JStr "today")] |}].
Proof.
  split; [|vm_compute; reflexivity].
  apply (proj1 (default_date_range sample_vendor body_request
    (or_intror (ex_intro _ [("property_id", JStr "182279779")]
                  (conj eq_refl eq_refl)))
    eq_refl eq_refl
    (fun o H => ltac:(vm_compute in H; injection H as <-; split; reflexivity)))).
Defined.

(** ** C3 *)

(** C3 (amended).  The JSON body is read only when [property_id] is falsy
    in the query string; then each of the three parameters that is falsy in
    the query string is taken from the body object ([resolved_params]).
    When [property_id] is in the query string, [start_date] and [end_date]
    come from the query string alone (or default).  Each sessions handler
    issues its [RunReportRequest] from exactly those resolved values; when a
    resolved date is truthy but not a string ([dates_ok] false), building
    the [RunReportRequest] raises and no vendor call is made. *)
Theorem parameter_sources V req pid sd ed :
  resolved_params req = Ok (pid, sd, ed) -> truthy pid = true ->
  (dates_ok sd ed = true ->
   snd (MainOld.ga4_property_sessions V req) =
     [VRunReport DefaultCreds (report_request pid sd ed)] /\
   (valid_bearer (auth_header req) = true ->
    snd (MainOauth.ga4_property_sessions V req) =
      [VRunReport (UserCreds (bearer_token req) []) (report_request pid sd ed)]) /\
   (req_method req <> "OPTIONS" -> valid_bearer (auth_header req) = true ->
    snd (Main.ga4_property_sessions_oauth V req) =
      [VRunReport (UserCreds (bearer_token req) readonly_scope)
         (report_request pid sd ed)])) /\
  (dates_ok sd ed = false ->
   MainOld.ga4_property_sessions V req = (Raise (report_error V sd ed), []) /\
   (valid_bearer (auth_header req) = true ->
    MainOauth.ga4_property_sessions V req = (Raise (report_error V sd ed), [])) /\
   (req_method req <> "OPTIONS" -> valid_bearer (auth_header req) = true ->
    Main.ga4_property_sessions_oauth V req = (Raise (report_error V sd ed), []))).
Proof.
  intros Hr Hp. split.
  - exact (handlers_call_report V req pid sd ed Hr Hp).
  - exact (handlers_request_error V req pid sd ed Hr Hp).
Qed.

Lemma parameter_sources_witness :
  resolved_params query_and_body_request =
    Ok (JStr "182279779", JNull, JNull) /\
  snd (MainOld.ga4_property_sessions sample_vendor query_and_body_request) =
    [VRunReport DefaultCreds (report_request (JStr "182279779") JNull JNull)] /\
  resolved_params numeric_date_request =
    Ok (JStr "182279779", JInt 20251201, JNull) /\
  MainOauth.ga4_property_sessions sample_vendor numeric_date_request =
    (Raise (report_error sample_vendor (JInt 20251201) JNull), []).
Proof.
  split; [vm_compute; reflexivity|]. split.
  { apply (proj1 (proj1 (parameter_sources sample_vendor query_and_body_request
      (JStr "182279779") JNull JNull ltac:(vm_compute; reflexivity) eq_refl)
      eq_refl)). }
  split; [vm_compute; reflexivity|].
  apply (proj1 (proj2 (proj2 (parameter_sources sample_vendor numeric_date_request
      (JStr "182279779") (JInt 20251201) JNull ltac:(vm_compute; reflexivity)
      eq_refl) eq_refl))).
  vm_compute. reflexivity.
Defined.

(** C3 fails as stated: with [property_id] in the query string, the
    [start_date] and [end_date] of the JSON body are not used; the report
    is requested for the default range. *)
Lemma body_dates_ignored :
  snd (MainOauth.ga4_property_sessions sample_vendor query_and_body_request) =
  [VRunReport (UserCreds "ya29.token" [])
     {| rr_property_id := JStr "182279779"; rr_metrics := ["sessions"];
        rr_date_ranges := [(JStr "30daysAgo", JStr "today")] |}].
Proof. vm_compute. reflexivity. Qed.


(** ** C4 *)

(** C4 (amended).  Without a valid bearer header ([Authorization] not
    starting with ["Bearer "], or an empty token once stripped),
    [main_oauth.ga4_list_accounts] and [main_oauth.ga4_property_sessions]
    return 401 with body [{"error": msg}] and issue no vendor call;
    [main.ga4_property_sessions_oauth] does so for every request whose
    method is not [OPTIONS]. *)
Theorem invalid_bearer_unauthorized V req :
  valid_bearer (auth_header req) = false ->
  (exists msg, MainOauth.ga4_list_accounts V req =
     (Ok (MainOauth.json_response (JObj [("error", JStr msg)]) 401), [])) /\
  (exists msg, MainOauth.ga4_property_sessions V req =
     (Ok (MainOauth.json_response (JObj [("error", JStr msg)]) 401), [])) /\
  (req_method req <> "OPTIONS" ->
   exists msg, Main.ga4_property_sessions_oauth V req =
     (Ok (Main.json_response (JObj [("error", JStr msg)]) 401), [])).
Proof.
  intros Hv. split; [|split].
  - destruct (oauth_authenticate_cases req) as [[_ [msg Ha]]|[Hv' _]];
      [|congruence].
    exists msg. unfold MainOauth.ga4_list_accounts.
    rewrite Ha, bind_ok_nil. reflexivity.
  - destruct (oauth_sessions_cases V req) as [[_ [msg Hh]]|[Hv' _]];
      [|congruence].
    exists msg. exact Hh.
  - intros Hm.
    destruct (main_sessions_cases V req)
      as [[Hm' _]|[[_ [_ [msg Hh]]]|[_ [Hv' _]]]];
      [contradiction|exists msg; exact Hh|congruence].
Qed.

Lemma invalid_bearer_unauthorized_witness :
  valid_bearer (auth_header anonymous_request) = false /\
  exists msg, MainOauth.ga4_list_accounts sample_vendor anonymous_request =
    (Ok (MainOauth.json_response (JObj [("error", JStr msg)]) 401), []).
Proof.
  split; [vm_compute; reflexivity|].
  apply (proj1 (invalid_bearer_unauthorized sample_vendor anonymous_request
                  ltac:(vm_compute; reflexivity))).
Defined.

(** C4 fails as stated for [main.ga4_property_sessions_oauth]: a preflight
    [OPTIONS] request without any header gets the 204 preflight answer. *)
Lemma preflight_not_unauthorized :
  valid_bearer (auth_header options_request) = false /\
  Main.ga4_property_sessions_oauth sample_vendor options_request =
    (Ok Main.preflight_response, []) /\
  resp_status Main.preflight_response = 204%Z.
Proof. split; [|split]; vm_compute; reflexivity. Qed.

(** ** C5 *)

Lemma resolved_missing (req : request) o :
  truthy (args_param req "property_id") = false ->
  json_or_empty req = JObj o -> truthy (dict_lookup o "property_id") = false ->
  exists sd ed, resolved_params req = Ok (dict_lookup o "property_id", sd, ed).
Proof.
  intros Hp Ho Hpo. unfold resolved_params. rewrite Hp, Ho.
  eexists _, _. unfold py_or at 1. rewrite Hp. reflexivity.
Qed.

(** C5 (amended).  When [property_id] is falsy in the query string and in
    the JSON body, and the body is absent, falsy or a JSON object:
    [main_old.ga4_property_sessions] returns 400 with body
    [{"error": "Missing required parameter: property_id"}] and calls no
    vendor API; the two bearer-token handlers do the same once the request
    carries a valid bearer token (and, for [main.py], is not an [OPTIONS]
    preflight), otherwise they answer 401 (resp. 204) first. *)
Theorem missing_property_id_rejected V req o :
  truthy (args_param req "property_id") = false ->
  json_or_empty req = JObj o -> truthy (dict_lookup o "property_id") = false ->
  MainOld.ga4_property_sessions V req =
    (Ok (MainOld.json_response missing_property_id 400), []) /\
  (valid_bearer (auth_header req) = true ->
   MainOauth.ga4_property_sessions V req =
     (Ok (MainOauth.json_response missing_property_id 400), [])) /\
  (req_method req <> "OPTIONS" -> valid_bearer (auth_header req) = true ->
   Main.ga4_property_sessions_oauth V req =
     (Ok (Main.json_response missing_property_id 400), [])).
Proof.
  intros Hp Ho Hpo.
  destruct (resolved_missing req o Hp Ho Hpo) as [sd [ed Hr]].
  split; [|split].
  - rewrite old_sessions_eq, Hr. unfold params_dispatch. rewrite Hpo. reflexivity.
  - intros Hv. destruct (oauth_sessions_cases V req) as [[Hv' _]|[_ Hh]];
      [congruence|].
    rewrite Hh, Hr. unfold params_dispatch. rewrite Hpo. reflexivity.
  - intros Hm Hv.
    destruct (main_sessions_cases V req)
      as [[Hm' _]|[[_ [Hv' _]]|[_ [_ Hh]]]]; [contradiction|congruence|].
    rewrite Hh, Hr. unfold params_dispatch. rewrite Hpo. reflexivity.
Qed.

Lemma missing_property_id_rejected_witness :
  MainOauth.ga4_property_sessions sample_vendor no_property_request =
    (Ok (MainOauth.json_response missing_property_id 400), []).
Proof.
  apply (missing_property_id_rejected sample_vendor no_property_request []
           ltac:(vm_compute; reflexivity) ltac:(vm_compute; reflexivity)
           ltac:(vm_compute; reflexivity)).
  vm_compute. reflexivity.
Defined.

(** C5 fails as stated for the bearer-token handlers: without an
    [Authorization] header the answer is 401, not 400. *)
Lemma missing_property_without_auth :
  MainOauth.ga4_property_sessions sample_vendor anonymous_request =
  (Ok (MainOauth.json_response
         (JObj [("error", JStr ("Missing or invalid Authorization header. " ++
            "Expected: 'Authorization: Bearer <ACCESS_TOKEN>'"))]) 401), []).
Proof. vm_compute. reflexivity. Qed.


(** ** C6 *)

(** C6.  In [main.ga4_list_accounts_oauth], after the preflight check, every
    exception raised in the [try] block (the auth-header [ValueError], a
    vendor SDK exception, ...) becomes a 500 response with CORS headers whose
    body carries [str(e)] under ["error"] and the formatted stack trace under
    ["traceback"]; the handler itself never raises. *)
Theorem list_accounts_oauth_errors (fe : exn -> string) V req :
  req_method req <> "OPTIONS" ->
  (forall e l, Main.list_accounts_try V req = (Raise e, l) ->
   Main.ga4_list_accounts_oauth fe V req =
     (Ok (Main.json_response
            (JObj [("error", JStr (str_exn e)); ("traceback", JStr (fe e))]) 500),
      l)) /\
  (exists b, fst (Main.ga4_list_accounts_oauth fe V req) = Ok b) /\
  (valid_bearer (auth_header req) = false ->
   exists msg, Main.ga4_list_accounts_oauth fe V req =
     (Ok (Main.json_response
            (JObj [("error", JStr msg); ("traceback", JStr (fe (ValueError msg)))])
            500), [])) /\
  (forall e, valid_bearer (auth_header req) = true ->
   v_list_account_summaries V (UserCreds (bearer_token req) readonly_scope) = Raise e ->
   Main.ga4_list_accounts_oauth fe V req =
     (Ok (Main.json_response
            (JObj [("error", JStr (str_exn e)); ("traceback", JStr (fe e))]) 500),
      [VListAccountSummaries (UserCreds (bearer_token req) readonly_scope)])).
Proof.
  intros Hm.
  assert (Ho : String.eqb (req_method req) "OPTIONS" = false)
    by (apply String.eqb_neq; exact Hm).
  assert (Hgen : forall e l, Main.list_accounts_try V req = (Raise e, l) ->
    Main.ga4_list_accounts_oauth fe V req =
      (Ok (Main.json_response
             (JObj [("error", JStr (str_exn e)); ("traceback", JStr (fe e))]) 500),
       l)).
  { intros e l H. unfold Main.ga4_list_accounts_oauth, try_except.
    rewrite Ho, H. simpl. rewrite app_nil_r. reflexivity. }
  split; [exact Hgen|split; [|split]].
  - unfold Main.ga4_list_accounts_oauth, try_except. rewrite Ho.
    destruct (Main.list_accounts_try V req) as [[b|e] l]; simpl;
      eexists; reflexivity.
  - intros Hv.
    destruct (main_credentials_cases req) as [[_ [msg Hc]]|[Hv' _]];
      [|congruence].
    exists msg. apply (Hgen (ValueError msg) []).
    unfold Main.list_accounts_try. rewrite Hc. reflexivity.
  - intros e Hv Hl. apply Hgen. unfold Main.list_accounts_try.
    destruct (main_credentials_cases req) as [[Hv' _]|[_ Hc]]; [congruence|].
    rewrite Hc, bind_ok_nil. cbv beta iota.
    rewrite (listing_run V _
      (fun data => Main.json_response (JObj [("accounts", JList data)]) 200)).
    unfold readonly_scope in Hl. rewrite Hl. reflexivity.
Qed.

Lemma list_accounts_oauth_errors_witness :
  Main.ga4_list_accounts_oauth sample_format_exc failing_vendor sample_request =
  (Ok (Main.json_response
         (JObj [("error", JStr "403 PERMISSION_DENIED");
                ("traceback", JStr (sample_format_exc
                                      (VendorError "403 PERMISSION_DENIED")))]) 500),
   [VListAccountSummaries (UserCreds "ya29.token" readonly_scope)]).
Proof.
  destruct (list_accounts_oauth_errors sample_format_exc failing_vendor
              sample_request ltac:(vm_compute; discriminate)) as [_ [_ [_ H]]].
  apply (H (VendorError "403 PERMISSION_DENIED")); vm_compute; reflexivity.
Defined.

(** ** C7 *)

(** C7.  For every list of account summaries the vendor returns, the
    listing handlers ([main_oauth.ga4_list_accounts],
    [main.ga4_list_accounts_oauth], [main_old.ga4_list_accounts]), once they
    issued [list_account_summaries], answer 200 with [{"accounts": [...]}]:
    one entry per summary in vendor order with its [account] and
    [display_name] unchanged, and one entry per property with the resource
    name unchanged and [propertyId] the substring after its last ["/"]. *)
Theorem accounts_listing (fe : exn -> string) V req ss c o :
  v_list_account_summaries V c = Ok ss ->
  (MainOauth.ga4_list_accounts V req = (o, [VListAccountSummaries c]) ->
   exists b, o = Ok b /\ listing_ok ss b) /\
  (Main.ga4_list_accounts_oauth fe V req = (o, [VListAccountSummaries c]) ->
   exists b, o = Ok b /\ listing_ok ss b) /\
  (MainOld.ga4_list_accounts V req = (o, [VListAccountSummaries c]) ->
   exists b, o = Ok b /\ listing_ok ss b).
Proof.
  intros Hl. split; [|split]; intros H.
  - unfold MainOauth.ga4_list_accounts in H.
    destruct (oauth_authenticate_cases req) as [[_ [msg Ha]]|[_ Ha]];
      rewrite Ha, bind_ok_nil in H; [discriminate|].
    cbv beta iota in H.
    rewrite (listing_run V _
      (fun data => MainOauth.json_response (JObj [("accounts", JList data)]) 200))
      in H.
    injection H as Ho Hc. subst c. rewrite Hl in Ho. subst o.
    eexists; split; [reflexivity|].
    apply (listing_ok_mk ss (fun j => MainOauth.json_response j 200)).
    intros j; split; reflexivity.
  - unfold Main.ga4_list_accounts_oauth, try_except in H.
    destruct (String.eqb (req_method req) "OPTIONS"); [discriminate|].
    unfold Main.list_accounts_try in H.
    destruct (main_credentials_cases req) as [[_ [msg Hc]]|[_ Hc]];
      rewrite Hc in H; [simpl in H; discriminate|].
    rewrite bind_ok_nil in H. cbv beta iota in H.
    rewrite (listing_run V _
      (fun data => Main.json_response (JObj [("accounts", JList data)]) 200))
      in H.
    match type of H with context [v_list_account_summaries V ?c0] =>
      destruct (v_list_account_summaries V c0) as [ss'|e] eqn:E
    end;
      simpl in H; injection H as Ho Hc'; subst c; rewrite Hl in E;
      [|discriminate].
    injection E as <-. subst o. eexists; split; [reflexivity|].
    apply (listing_ok_mk ss (fun j => Main.json_response j 200)).
    intros j; split; reflexivity.
  - unfold MainOld.ga4_list_accounts in H.
    rewrite (listing_run V _
      (fun data => MainOld.json_response (JObj [("accounts", JList data)]) 200))
      in H.
    injection H as Ho Hc. subst c. rewrite Hl in Ho. subst o.
    eexists; split; [reflexivity|].
    apply (listing_ok_mk ss (fun j => MainOld.json_response j 200)).
    intros j; split; reflexivity.
Qed.

Lemma accounts_listing_witness :
  exists b, fst (MainOld.ga4_list_accounts sample_vendor anonymous_request) = Ok b /\
            listing_ok sample_summaries b.
Proof.
  apply (proj2 (proj2 (accounts_listing sample_format_exc sample_vendor
    anonymous_request sample_summaries DefaultCreds
    (fst (MainOld.ga4_list_accounts sample_vendor anonymous_request)) eq_refl))).
  vm_compute. reflexivity.
Defined.


(** ** C8 *)

(** C8.  Authorization is checked before the parameters: a non-OPTIONS
    request without a valid ["Bearer "] Authorization header gets a 401 from
    both bearer-token sessions handlers, whatever its parameters (so also
    when [property_id] is missing), never a 400, and no vendor call is
    made. *)
Theorem authorization_before_parameters V req :
  req_method req <> "OPTIONS" ->
  valid_bearer (auth_header req) = false ->
  (exists b, MainOauth.ga4_property_sessions V req = (Ok b, []) /\
             resp_status b = 401%Z /\ resp_status b <> 400%Z) /\
  (exists b, Main.ga4_property_sessions_oauth V req = (Ok b, []) /\
             resp_status b = 401%Z /\ resp_status b <> 400%Z).
Proof.
  intros Hm Hv. split.
  - destruct (oauth_sessions_cases V req) as [[_ [msg H]]|[Hv' _]];
      [|congruence].
    eexists; split; [exact H|]. split; [reflexivity|discriminate].
  - destruct (main_sessions_cases V req)
      as [[Hm' _]|[[_ [_ [msg H]]]|[_ [Hv' _]]]]; [congruence| |congruence].
    eexists; split; [exact H|]. split; [reflexivity|discriminate].
Qed.

Lemma authorization_before_parameters_witness :
  args_param anonymous_request "property_id" = JNull /\
  (exists b, MainOauth.ga4_property_sessions sample_vendor anonymous_request = (Ok b, []) /\
             resp_status b = 401%Z /\ resp_status b <> 400%Z) /\
  (exists b, Main.ga4_property_sessions_oauth sample_vendor anonymous_request = (Ok b, []) /\
             resp_status b = 401%Z /\ resp_status b <> 400%Z).
Proof.
  split; [vm_compute; reflexivity|].
  apply (authorization_before_parameters sample_vendor anonymous_request);
    vm_compute; [discriminate|reflexivity].
Defined.

(** ** C9 *)

(** Counterexample to C9: on a request without Authorization header both
    handlers answer 401, with different error messages. *)
Lemma unauthorized_messages_differ :
  exists b1 b2,
    fst (Main.ga4_property_sessions_oauth sample_vendor anonymous_request) = Ok b1 /\
    fst (MainOauth.ga4_property_sessions sample_vendor anonymous_request) = Ok b2 /\
    resp_status b1 = 401%Z /\ resp_status b2 = 401%Z /\
    resp_body b1 <> resp_body b2.
Proof.
  do 2 eexists. split; [vm_compute; reflexivity|].
  split; [vm_compute; reflexivity|].
  split; [reflexivity|]. split; [reflexivity|].
  vm_compute. discriminate.
Qed.

(** C9 (amended).  For every non-OPTIONS request, and a vendor whose
    [run_report] does not depend on the scopes attached to the user
    credentials, [main.ga4_property_sessions_oauth] and
    [main_oauth.ga4_property_sessions] give the same status and, on the 400
    and 200 paths, the same body; on the 401 path both bodies are
    [{"error": msg}] but the messages differ between the two files; the
    headers are the CORS set against [Content-Type] only; when one raises,
    the other raises the same exception. *)
Theorem sessions_variants_agree V req :
  scope_insensitive V ->
  req_method req <> "OPTIONS" ->
  oauth_variants_agree (fst (Main.ga4_property_sessions_oauth V req))
                       (fst (MainOauth.ga4_property_sessions V req)).
Proof.
  intros Hs Hm.
  destruct (main_sessions_cases V req)
    as [[Hm' _]|[[_ [Hv [msg1 H1]]]|[_ [Hv H1]]]]; [congruence| |].
  - destruct (oauth_sessions_cases V req) as [[_ [msg2 H2]]|[Hv' _]];
      [|congruence].
    rewrite H1, H2. simpl.
    split; [reflexivity|]. split; [intros C; exfalso; apply C; reflexivity|].
    split; [intros _; exists msg1, msg2; split; reflexivity|].
    split; reflexivity.
  - destruct (oauth_sessions_cases V req) as [[Hv' _]|[_ H2]]; [congruence|].
    rewrite H1, H2. unfold params_dispatch.
    destruct (resolved_params req) as [[[p s] e]|e]; [|simpl; reflexivity].
    destruct (truthy p).
    + rewrite main_sessions_report, oauth_sessions_report. unfold report_run.
      destruct (dates_ok s e); simpl; [|reflexivity].
      rewrite (Hs (bearer_token req) readonly_scope []).
      unfold sessions_outcome.
      destruct (v_run_report V (UserCreds (bearer_token req) [])
                  (report_request p s e)) as [resp|ex]; [|reflexivity].
      destruct (total_sessions_of resp) as [n|ex]; [|reflexivity].
      simpl. split; [reflexivity|]. split; [reflexivity|].
      split; [discriminate|]. split; reflexivity.
    + simpl. split; [reflexivity|]. split; [reflexivity|].
      split; [discriminate|]. split; reflexivity.
Qed.

Lemma sessions_variants_agree_witness :
  scope_insensitive sample_vendor /\
  oauth_variants_agree (fst (Main.ga4_property_sessions_oauth sample_vendor sample_request))
                       (fst (MainOauth.ga4_property_sessions sample_vendor sample_request)).
Proof.
  assert (Hs : scope_insensitive sample_vendor) by (intros ? ? ? ?; reflexivity).
  split; [exact Hs|].
  apply (sessions_variants_agree sample_vendor sample_request Hs).
  vm_compute. discriminate.
Defined.

(** ** C10 *)

Lemma list_accounts_try_cors V req b :
  fst (Main.list_accounts_try V req) = Ok b -> resp_headers b = Main.cors_headers.
Proof.
  unfold Main.list_accounts_try.
  destruct (main_credentials_cases req) as [[_ [msg Hc]]|[_ Hc]];
    rewrite Hc; [simpl; discriminate|].
  rewrite bind_ok_nil. cbv beta iota.
  rewrite (listing_run V _
    (fun data => Main.json_response (JObj [("accounts", JList data)]) 200)).
  match goal with |- context [v_list_account_summaries V ?c0] =>
    destruct (v_list_account_summaries V c0) end;
    simpl; intros H; [injection H as <-; reflexivity|discriminate].
Qed.

Lemma main_sessions_cors V req b :
  fst (Main.ga4_property_sessions_oauth V req) = Ok b ->
  resp_headers b = Main.cors_headers.
Proof.
  destruct (main_sessions_cases V req)
    as [[_ H]|[[_ [_ [msg H]]]|[_ [_ H]]]]; rewrite H.
  - simpl; intros E; injection E as <-; reflexivity.
  - simpl; intros E; injection E as <-; reflexivity.
  - unfold params_dispatch.
    destruct (resolved_params req) as [[[p s] e]|e]; [|simpl; discriminate].
    destruct (truthy p).
    + rewrite main_sessions_report. unfold report_run.
      destruct (dates_ok s e); simpl; [|discriminate]. unfold sessions_outcome.
      destruct (v_run_report _ _ _) as [resp|ex]; [|discriminate].
      destruct (total_sessions_of resp) as [n|ex]; [|discriminate].
      intros E; injection E as <-; reflexivity.
    + simpl; intros E; injection E as <-; reflexivity.
Qed.

(** Counterexample to C10: the sessions handler of [main.py] does not catch
    the vendor's exceptions, so on a vendor error it produces no response of
    its own, and the 500 the runtime answers is not built with the CORS
    headers. *)
Lemma sessions_vendor_error_uncaught :
  Main.ga4_property_sessions_oauth failing_vendor sample_request =
  (Raise (VendorError "403 PERMISSION_DENIED"),
   [VRunReport (UserCreds "ya29.token" readonly_scope)
      (report_request (JStr "182279779") JNull JNull)]).
Proof. vm_compute. reflexivity. Qed.

(** C10 (amended).  Every response the handlers of [main.py] return
    (200, 401, 400, and the 500 of [ga4_list_accounts_oauth]) carries the
    CORS header set [Content-Type: application/json],
    [Access-Control-Allow-Origin: *],
    [Access-Control-Allow-Headers: Authorization, Content-Type],
    [Access-Control-Allow-Methods: GET, POST, OPTIONS]; every OPTIONS
    request gets [("", 204, those headers)] whatever its headers, with no
    vendor call.  An exception of the vendor or of the count parsing in
    [ga4_property_sessions_oauth] is not caught: whenever the handler made
    its [run_report] call and that call, or [int()] on the count, raised,
    the handler raises the same exception and returns no response. *)
Theorem cors_everywhere (fe : exn -> string) V req :
  Main.cors_headers =
    [("Content-Type", "application/json");
     ("Access-Control-Allow-Origin", "*");
     ("Access-Control-Allow-Headers", "Authorization, Content-Type");
     ("Access-Control-Allow-Methods", "GET, POST, OPTIONS")] /\
  (forall b, fst (Main.ga4_list_accounts_oauth fe V req) = Ok b ->
     resp_headers b = Main.cors_headers) /\
  (forall b, fst (Main.ga4_property_sessions_oauth V req) = Ok b ->
     resp_headers b = Main.cors_headers) /\
  (req_method req = "OPTIONS" ->
     Main.ga4_list_accounts_oauth fe V req =
       (Ok {| resp_body := BText EmptyString; resp_status := 204;
              resp_headers := Main.cors_headers |}, []) /\
     Main.ga4_property_sessions_oauth V req =
       (Ok {| resp_body := BText EmptyString; resp_status := 204;
              resp_headers := Main.cors_headers |}, [])) /\
  (forall c rq o, Main.ga4_property_sessions_oauth V req = (o, [VRunReport c rq]) ->
     (forall e, v_run_report V c rq = Raise e -> o = Raise e) /\
     (forall resp e, v_run_report V c rq = Ok resp ->
        total_sessions_of resp = Raise e -> o = Raise e)).
Proof.
  split; [reflexivity|].
  split; [|split; [apply main_sessions_cors|split]].
  - intros b. unfold Main.ga4_list_accounts_oauth, try_except.
    destruct (String.eqb (req_method req) "OPTIONS").
    + simpl; intros E; injection E as <-; reflexivity.
    + destruct (Main.list_accounts_try V req) as [[b'|e] l] eqn:E.
      * simpl; intros H; injection H as <-.
        apply (list_accounts_try_cors V req). rewrite E. reflexivity.
      * simpl. intros H; injection H as <-; reflexivity.
  - intros Hm.
    unfold Main.ga4_list_accounts_oauth, Main.ga4_property_sessions_oauth,
      Main.handle_preflight.
    rewrite Hm. split; reflexivity.
  - intros c rq o H.
    destruct (proj1 (proj2 (sessions_handlers_called V req c rq)) o H)
      as [pid [sd [ed [_ [_ [_ [_ ->]]]]]]].
    unfold sessions_outcome. split.
    + intros e He. rewrite He. reflexivity.
    + intros resp e He Ht. rewrite He, Ht. reflexivity.
Qed.

Lemma cors_everywhere_witness :
  Main.ga4_property_sessions_oauth failing_vendor sample_request =
    (Raise (VendorError "403 PERMISSION_DENIED"),
     [VRunReport (UserCreds "ya29.token" readonly_scope)
        (report_request (JStr "182279779") JNull JNull)]) /\
  v_run_report failing_vendor (UserCreds "ya29.token" readonly_scope)
    (report_request (JStr "182279779") JNull JNull) =
    Raise (VendorError "403 PERMISSION_DENIED").
Proof.
  assert (Hv : v_run_report failing_vendor (UserCreds "ya29.token" readonly_scope)
    (report_request (JStr "182279779") JNull JNull) =
    Raise (VendorError "403 PERMISSION_DENIED")) by (vm_compute; reflexivity).
  split; [|exact Hv].
  assert (Hh : Main.ga4_property_sessions_oauth failing_vendor sample_request =
    (fst (Main.ga4_property_sessions_oauth failing_vendor sample_request),
     [VRunReport (UserCreds "ya29.token" readonly_scope)
        (report_request (JStr "182279779") JNull JNull)]))
    by (vm_compute; reflexivity).
  pose proof (proj1 (proj2 (proj2 (proj2 (proj2 (cors_everywhere sample_format_exc
    failing_vendor sample_request)))) _ _ _ Hh) _ Hv) as Ho.
  rewrite Hh, Ho. reflexivity.
Defined.

End Claims.

(** * Further properties of the code *)
Module Extras.
Import Py GA Eff Http Spec More Theory.

(** ** [int()] on the metric value *)

(** A property of one code point, checked on all 256 of them. *)
Ltac ascii_cases c :=
  destruct c as [[] [] [] [] [] [] [] []]; vm_compute;
  intros H; first [discriminate H | repeat split].

Lemma digit_not_int_space c : is_digit c = true -> int_space c = false.
Proof. ascii_cases c. Qed.

Lemma int_space_not_run c :
  int_space c = true -> (is_digit c || Ascii.eqb c "_") = false.
Proof. ascii_cases c. Qed.

Lemma space_not_run c :
  py_isspace c = true ->
  (is_digit c || Ascii.eqb c "_") = false /\
  Ascii.eqb c "-" = false /\ Ascii.eqb c "+" = false.
Proof. ascii_cases c. Qed.

Lemma is_digit_not_sign c :
  is_digit c = true -> Ascii.eqb c "-" = false /\ Ascii.eqb c "+" = false.
Proof. ascii_cases c. Qed.

Lemma digit_value_bound c : is_digit c = true -> (0 <= digit_value c < 10)%Z.
Proof.
  unfold is_digit, digit_value. intros H.
  apply andb_prop in H as [H1 H2]. apply Nat.leb_le in H1, H2. lia.
Qed.

Lemma digit_char_spec d :
  (0 <= d < 10)%Z ->
  is_digit (digit_char d) = true /\ digit_value (digit_char d) = d.
Proof.
  intros Hd. unfold is_digit, digit_value, digit_char.
  rewrite nat_ascii_embedding by lia. split.
  - apply andb_true_intro; split; apply Nat.leb_le; lia.
  - replace (48 + Z.to_nat d - 48)%nat with (Z.to_nat d) by lia. lia.
Qed.

Lemma parse_digits_true l acc :
  forallb is_digit l = true ->
  parse_digits acc true l =
  Some (fold_left (fun a c => a * 10 + digit_value c)%Z l acc).
Proof.
  revert acc; induction l as [|c t IH]; intros acc H; [reflexivity|].
  simpl in H. apply andb_prop in H as [Hc Ht].
  simpl. rewrite Hc. apply IH, Ht.
Qed.

Lemma parse_digits_false c t acc :
  forallb is_digit (c :: t) = true ->
  parse_digits acc false (c :: t) =
  Some (fold_left (fun a c => a * 10 + digit_value c)%Z (c :: t) acc).
Proof.
  intros H. simpl in H |- *. apply andb_prop in H as [Hc Ht].
  rewrite Hc. apply parse_digits_true, Ht.
Qed.

(** The value of [k] digits is below [10 ^ k]. *)
Lemma fold_digits_lt ds acc :
  forallb is_digit ds = true -> (0 <= acc)%Z ->
  (fold_left (fun a c => a * 10 + digit_value c)%Z ds acc <
   (acc + 1) * 10 ^ Z.of_nat (length ds))%Z.
Proof.
  revert acc; induction ds as [|c t IH]; intros acc H Hacc;
    cbn [fold_left length]; [cbn; lia|].
  simpl in H. apply andb_prop in H as [Hc Ht].
  destruct (digit_value_bound c Hc) as [Hd0 Hd1].
  specialize (IH (acc * 10 + digit_value c)%Z Ht ltac:(lia)).
  rewrite Nat2Z.inj_succ, Z.pow_succ_r by lia.
  assert (0 <= 10 ^ Z.of_nat (length t))%Z by (apply Z.pow_nonneg; lia).
  nia.
Qed.

Lemma digits_acc_S f n acc :
  digits_acc (S f) n acc =
  if (n <? 10)%Z then digit_char (n mod 10) :: acc
  else digits_acc f (n / 10) (digit_char (n mod 10) :: acc).
Proof. reflexivity. Qed.

Lemma digits_acc_spec f n acc :
  (0 <= n < 2 ^ Z.of_nat (S f))%Z ->
  exists ds, digits_acc (S f) n acc = (ds ++ acc)%list /\ ds <> [] /\
    forallb is_digit ds = true /\
    fold_left (fun a c => a * 10 + digit_value c)%Z ds 0%Z = n /\
    (length ds = 1%nat \/ (10 ^ Z.of_nat (length ds) <= 10 * n)%Z).
Proof.
  revert n acc; induction f as [|f IH]; intros n acc Hn;
    (assert (Hm : (0 <= n mod 10 < 10)%Z) by (apply Z.mod_pos_bound; lia));
    destruct (digit_char_spec (n mod 10) Hm) as [Hd Hv];
    rewrite digits_acc_S;
    remember (digit_char (n mod 10)) as dc eqn:Edc; clear Edc;
    destruct (n <? 10)%Z eqn:E.
  1, 3:
    exists [dc]; split; [reflexivity|]; split; [discriminate|];
    cbn [forallb fold_left]; rewrite Hd, Hv; split; [reflexivity|];
    apply Z.ltb_lt in E; rewrite Z.mod_small by lia; split; [lia|left; reflexivity].
  - apply Z.ltb_ge in E. cbn in Hn. lia.
  - apply Z.ltb_ge in E.
    assert (Hq : (0 <= n / 10 < 2 ^ Z.of_nat (S f))%Z).
    { split; [apply Z.div_pos; lia|].
      apply Z.div_lt_upper_bound; [lia|].
      rewrite Nat2Z.inj_succ, Z.pow_succ_r in Hn by lia. lia. }
    destruct (IH (n / 10)%Z (dc :: acc) Hq)
      as [ds [Hds [Hne [Hall [Hval Hlen]]]]].
    exists (ds ++ [dc])%list.
    rewrite Hds, <- app_assoc. split; [reflexivity|].
    split; [destruct ds; [contradiction|discriminate]|].
    rewrite forallb_app, Hall, fold_left_app, Hval. cbn [forallb fold_left].
    rewrite Hd, Hv. split; [reflexivity|].
    split; [rewrite (Z.div_mod n 10) at 3 by lia; lia|].
    right. rewrite length_app, Nat2Z.inj_add, Z.pow_add_r by lia.
    cbn [length Z.of_nat]. rewrite Z.pow_1_r.
    assert (H10 : (10 * (n / 10) <= n)%Z) by (apply Z.mul_div_le; lia).
    destruct Hlen as [Hl|Hl].
    + rewrite Hl. change (Z.of_nat 1) with 1%Z. lia.
    + lia.
Qed.

Lemma digits_of_spec n :
  (0 <= n)%Z ->
  digits_of n <> [] /\ forallb is_digit (digits_of n) = true /\
  fold_left (fun a c => a * 10 + digit_value c)%Z (digits_of n) 0%Z = n /\
  (length (digits_of n) = 1%nat \/
   (10 ^ Z.of_nat (length (digits_of n)) <= 10 * n)%Z).
Proof.
  intros Hn. unfold digits_of.
  destruct (digits_acc_spec (Z.to_nat (Z.log2 n)) n []) as [ds [H1 H2]].
  - split; [exact Hn|]. rewrite Nat2Z.inj_succ, Z2Nat.id by apply Z.log2_nonneg.
    destruct (Z.eq_dec n 0) as [->|Hn0]; [reflexivity|].
    apply Z.log2_spec. lia.
  - rewrite H1, app_nil_r. exact H2.
Qed.

(** [str(n)] has at most [m] digits exactly when [n < 10 ^ m]. *)
Lemma digits_of_length n m :
  (0 <= n)%Z -> (1 <= m)%Z ->
  ((Z.of_nat (length (digits_of n)) <= m)%Z <-> (n < 10 ^ m)%Z).
Proof.
  intros Hn Hm. destruct (digits_of_spec n Hn) as [_ [Hall [Hval Hlen]]].
  pose proof (fold_digits_lt (digits_of n) 0 Hall ltac:(lia)) as Hlt.
  rewrite Hval in Hlt.
  split; intros H.
  - eapply Z.lt_le_trans; [exact Hlt|].
    rewrite Z.mul_1_l. apply Z.pow_le_mono_r; lia.
  - destruct Hlen as [Hl|Hl]; [rewrite Hl; change (Z.of_nat 1) with 1%Z; lia|].
    assert (Hp : (10 ^ Z.of_nat (length (digits_of n)) < 10 ^ (m + 1))%Z).
    { rewrite Z.pow_add_r, Z.pow_1_r by lia. lia. }
    apply Z.pow_lt_mono_r_iff in Hp; lia.
Qed.

Lemma list_ascii_of_string_app s1 s2 :
  list_ascii_of_string (s1 ++ s2) =
  (list_ascii_of_string s1 ++ list_ascii_of_string s2)%list.
Proof. induction s1 as [|c s1 IH]; simpl; [reflexivity|]. rewrite IH. reflexivity. Qed.

Lemma length_list_ascii s : length (list_ascii_of_string s) = String.length s.
Proof. induction s as [|c s IH]; simpl; congruence. Qed.

Lemma list_of_str_of_Z n :
  list_ascii_of_string (str_of_Z n) =
  if (n <? 0)%Z then "-"%char :: digits_of (- n) else digits_of n.
Proof.
  unfold str_of_Z. destruct (n <? 0)%Z; simpl;
    rewrite list_ascii_of_string_of_list_ascii; reflexivity.
Qed.

Lemma skip_int_spaces ws l :
  forallb int_space ws = true -> skip_int_space (ws ++ l) = skip_int_space l.
Proof.
  induction ws as [|c ws IH]; intros H; [reflexivity|].
  simpl in H |- *. apply andb_prop in H as [Hc Hws]. rewrite Hc. apply IH, Hws.
Qed.

Lemma skip_int_space_cons c t :
  int_space c = false -> skip_int_space (c :: t) = c :: t.
Proof. intros H. simpl. rewrite H. reflexivity. Qed.

Lemma skip_int_space_suffix l : exists p, l = (p ++ skip_int_space l)%list.
Proof.
  induction l as [|c t [p Hp]]; [exists []; reflexivity|].
  simpl. destruct (int_space c).
  - exists (c :: p). simpl. rewrite <- Hp. reflexivity.
  - exists []. reflexivity.
Qed.

Lemma skip_int_space_In x l :
  In x l -> int_space x = false -> In x (skip_int_space l).
Proof.
  induction l as [|c t IH]; intros H Hx; [destruct H|].
  simpl. destruct (int_space c) eqn:Ec.
  - destruct H as [->|H]; [congruence|]. apply IH; assumption.
  - exact H.
Qed.

Lemma scan_run_digits ds r :
  forallb is_digit ds = true ->
  (forall c t, r = c :: t -> (is_digit c || Ascii.eqb c "_") = false) ->
  scan_run (ds ++ r) = (ds, r).
Proof.
  intros Hd Hr. induction ds as [|c t IH]; simpl.
  - destruct r as [|c t]; [reflexivity|]. simpl. rewrite (Hr c t eq_refl).
    reflexivity.
  - simpl in Hd. apply andb_prop in Hd as [Hc Ht]. rewrite Hc, (IH Ht).
    reflexivity.
Qed.

Lemma scan_run_spec l run rest :
  scan_run l = (run, rest) ->
  l = (run ++ rest)%list /\
  forallb (fun c => is_digit c || Ascii.eqb c "_") run = true.
Proof.
  revert run rest; induction l as [|c t IH]; intros run rest H.
  - injection H as <- <-. auto.
  - simpl in H. destruct (is_digit c || Ascii.eqb c "_") eqn:Ec.
    + destruct (scan_run t) as [r0 rest0]. injection H as <- <-.
      destruct (IH r0 rest0 eq_refl) as [-> Hr]. simpl. rewrite Ec, Hr. auto.
    + injection H as <- <-. auto.
Qed.

Lemma count_digits_all ds :
  forallb is_digit ds = true -> count_digits ds = Z.of_nat (length ds).
Proof.
  induction ds as [|c t IH]; intros H; [reflexivity|].
  simpl in H. apply andb_prop in H as [Hc Ht]. simpl. rewrite Hc, (IH Ht). lia.
Qed.

Lemma count_digits_le l : (count_digits l <= Z.of_nat (length l))%Z.
Proof. induction l as [|c t IH]; simpl; [lia|]. destruct (is_digit c); lia. Qed.

(** [int(ws1 + str(n) + ws2)] for whitespace [ws1], [ws2] that [int()]
    skips: [n], unless [str(n)] has more digits than the limit. *)
Lemma int_value_str_of_Z ws1 ws2 n :
  all_int_space ws1 = true -> all_int_space ws2 = true ->
  int_value (ws1 ++ str_of_Z n ++ ws2) =
  if (int_max_str_digits <? Z.of_nat (length (digits_of (Z.abs n))))%Z
  then Raise (ValueError (int_too_many_digits
                            (Z.of_nat (length (digits_of (Z.abs n))))))
  else Ok n.
Proof.
  intros H1 H2. unfold int_value.
  rewrite !list_ascii_of_string_app, list_of_str_of_Z,
    skip_int_spaces by exact H1.
  assert (Hr : forall c t, list_ascii_of_string ws2 = c :: t ->
                 (is_digit c || Ascii.eqb c "_") = false).
  { intros c t E. unfold all_int_space in H2. rewrite E in H2. simpl in H2.
    apply andb_prop in H2 as [Hc _]. apply int_space_not_run, Hc. }
  assert (Hs2 : skip_int_space (list_ascii_of_string ws2) = []).
  { rewrite <- (app_nil_r (list_ascii_of_string ws2)), skip_int_spaces
      by exact H2. reflexivity. }
  destruct (n <? 0)%Z eqn:En.
  - apply Z.ltb_lt in En.
    destruct (digits_of_spec (- n) ltac:(lia)) as [Hne [Hall [Hval _]]].
    replace (Z.abs n) with (- n)%Z by lia.
    remember (digits_of (- n)) as ds eqn:Eds; clear Eds.
    rewrite <- app_comm_cons, skip_int_space_cons by reflexivity.
    cbv beta iota. rewrite Ascii.eqb_refl. cbv beta iota.
    rewrite scan_run_digits by assumption. cbv beta iota.
    destruct ds as [|c t]; [contradiction|].
    rewrite parse_digits_false, count_digits_all by exact Hall.
    destruct (int_max_str_digits <? _)%Z; [reflexivity|].
    rewrite Hs2, Hval. f_equal. lia.
  - apply Z.ltb_ge in En.
    destruct (digits_of_spec n En) as [Hne [Hall [Hval _]]].
    replace (Z.abs n) with n by lia.
    remember (digits_of n) as ds eqn:Eds; clear Eds.
    destruct ds as [|c t]; [contradiction|].
    assert (Hc : is_digit c = true)
      by (simpl in Hall; apply andb_prop in Hall; apply Hall).
    destruct (is_digit_not_sign c Hc) as [Hm Hp].
    rewrite <- app_comm_cons, skip_int_space_cons by (apply digit_not_int_space, Hc).
    cbv beta iota. rewrite Hm, Hp. cbv beta iota.
    rewrite app_comm_cons, scan_run_digits by assumption. cbv beta iota.
    rewrite parse_digits_false, count_digits_all by exact Hall.
    destruct (int_max_str_digits <? _)%Z; [reflexivity|].
    rewrite Hs2, Hval. f_equal. lia.
Qed.

(** What follows the sign of a literal [int()] refuses with the
    "invalid literal" message. *)
Lemma int_tail_invalid (s : string) (sign : Z) (l : list ascii) :
  (forall run rest, scan_run l = (run, rest) -> parse_digits 0 false run <> None ->
     (count_digits run <= int_max_str_digits)%Z /\ skip_int_space rest <> []) ->
  (let '(run, rest) := scan_run l in
   match parse_digits 0 false run with
   | None => Raise (ValueError (int_invalid_literal s))
   | Some z =>
       if (int_max_str_digits <? count_digits run)%Z then
         Raise (ValueError (int_too_many_digits (count_digits run)))
       else match skip_int_space rest with
            | [] => Ok (sign * z)%Z
            | _ :: _ => Raise (ValueError (int_invalid_literal s))
            end
   end) = Raise (ValueError (int_invalid_literal s)).
Proof.
  intros H. destruct (scan_run l) as [run rest] eqn:Hs.
  specialize (H run rest eq_refl).
  destruct (parse_digits 0 false run) eqn:Ep; [|reflexivity].
  destruct H as [Hc Hr]; [congruence|].
  rewrite (proj2 (Z.ltb_ge _ _) Hc).
  destruct (skip_int_space rest); [contradiction|reflexivity].
Qed.

Lemma dot_tail l :
  In "."%char l -> (length l <= 4300)%nat ->
  forall run rest, scan_run l = (run, rest) -> parse_digits 0 false run <> None ->
    (count_digits run <= int_max_str_digits)%Z /\ skip_int_space rest <> [].
Proof.
  intros Hin Hlen run rest Hs _. apply scan_run_spec in Hs as [-> Hrun].
  split.
  - pose proof (count_digits_le run). rewrite length_app in Hlen.
    unfold int_max_str_digits. lia.
  - apply in_app_or in Hin as [Hin|Hin].
    + rewrite forallb_forall in Hrun. apply Hrun in Hin. discriminate.
    + pose proof (skip_int_space_In _ _ Hin eq_refl) as H.
      intros E. rewrite E in H. destruct H.
Qed.

Lemma blank_tail l :
  (forall c t, l = c :: t -> py_isspace c = true) ->
  forall run rest, scan_run l = (run, rest) -> parse_digits 0 false run <> None ->
    (count_digits run <= int_max_str_digits)%Z /\ skip_int_space rest <> [].
Proof.
  intros Hl run rest Hs Hp. exfalso. apply Hp.
  destruct l as [|c t]; simpl in Hs.
  - injection Hs as <- _. reflexivity.
  - destruct (space_not_run c (Hl c t eq_refl)) as [Hc _].
    rewrite Hc in Hs. injection Hs as <- _. reflexivity.
Qed.

Lemma has_char_In c s :
  has_char c s = true -> In c (list_ascii_of_string s).
Proof.
  unfold has_char. intros H. apply existsb_exists in H as [x [Hx E]].
  apply Ascii.eqb_eq in E. subst. exact Hx.
Qed.

(** A literal with a ["."] (and at most 4300 code points, so that the
    digit limit does not apply first) is refused by [int()]. *)
Lemma int_value_dot s :
  has_char "." s = true -> (String.length s <= 4300)%nat ->
  int_value s = Raise (ValueError (int_invalid_literal s)).
Proof.
  intros Hd Hlen. apply has_char_In in Hd. unfold int_value.
  destruct (skip_int_space_suffix (list_ascii_of_string s)) as [p Hp].
  assert (Hin : In "."%char (skip_int_space (list_ascii_of_string s)))
    by (apply skip_int_space_In; [exact Hd|reflexivity]).
  assert (Hl : (length (skip_int_space (list_ascii_of_string s)) <= 4300)%nat).
  { rewrite <- length_list_ascii in Hlen. rewrite Hp, length_app in Hlen. lia. }
  revert Hin Hl. generalize (skip_int_space (list_ascii_of_string s)) as l0.
  intros l0 Hin Hl. destruct l0 as [|c t]; [destruct Hin|].
  destruct (Ascii.eqb c "-") eqn:Em; [|destruct (Ascii.eqb c "+") eqn:Ep];
    cbv beta iota; apply int_tail_invalid.
  - apply Ascii.eqb_eq in Em. subst c. apply dot_tail.
    + destruct Hin as [E|Hin]; [discriminate E|exact Hin].
    + simpl in Hl. lia.
  - apply Ascii.eqb_eq in Ep. subst c. apply dot_tail.
    + destruct Hin as [E|Hin]; [discriminate E|exact Hin].
    + simpl in Hl. lia.
  - apply dot_tail; assumption.
Qed.

(** An empty or whitespace-only literal ([str.isspace]) is refused by
    [int()]. *)
Lemma int_value_blank s :
  all_space s = true ->
  int_value s = Raise (ValueError (int_invalid_literal s)).
Proof.
  intros Hs. unfold int_value.
  destruct (skip_int_space_suffix (list_ascii_of_string s)) as [p Hp].
  assert (Hall : forallb py_isspace (skip_int_space (list_ascii_of_string s)) = true).
  { unfold all_space in Hs. rewrite Hp, forallb_app in Hs.
    apply andb_prop in Hs. apply Hs. }
  revert Hall. generalize (skip_int_space (list_ascii_of_string s)) as l0.
  intros l0 Hall. destruct l0 as [|c t].
  - cbv beta iota. apply int_tail_invalid, blank_tail.
    intros c t E. discriminate E.
  - simpl in Hall. apply andb_prop in Hall as [Hc _].
    destruct (space_not_run c Hc) as [_ [Hm Hp']].
    rewrite Hm, Hp'. cbv beta iota. apply int_tail_invalid, blank_tail.
    intros c' t' E. injection E as <- _. exact Hc.
Qed.

Lemma get_sessions_eq V pid sd ed :
  Sessions.get_sessions_for_property V pid sd ed =
  (match v_run_report V DefaultCreds (sessions_request pid sd ed) with
   | Ok resp => total_sessions_of resp
   | Raise e => Raise e
   end, [VRunReport DefaultCreds (sessions_request pid sd ed)]).
Proof.
  unfold Sessions.get_sessions_for_property, run_report_request, run_report,
    total_sessions_of, py_int, sessions_request.
  simpl. report_crunch.
Qed.

(** X1.  [int()] inverts Python's [str()] on integers of at most 4300
    digits, also with whitespace that [int()] skips around the digits
    (\t \n \v \f \r, space, \x85, \xa0): a metric value equal to
    [ws1 + str(n) + ws2] is read as [n] by [get_sessions_for_property]. *)
Theorem metric_value_round_trip V pid sd ed resp row rest mv mvs n ws1 ws2 :
  all_int_space ws1 = true -> all_int_space ws2 = true ->
  (Z.abs n < 10 ^ 4300)%Z ->
  v_run_report V DefaultCreds (sessions_request pid sd ed) = Ok resp ->
  rows resp = row :: rest -> metric_values row = mv :: mvs ->
  mv_value mv = (ws1 ++ str_of_Z n ++ ws2)%string ->
  int_value (ws1 ++ str_of_Z n ++ ws2) = Ok n /\
  Sessions.get_sessions_for_property V pid sd ed =
    (Ok n, [VRunReport DefaultCreds (sessions_request pid sd ed)]).
Proof.
  intros H1 H2 Hn Hr Hrows Hmv Hv.
  assert (Hi : int_value (ws1 ++ str_of_Z n ++ ws2) = Ok n).
  { rewrite int_value_str_of_Z by assumption.
    apply (digits_of_length (Z.abs n) 4300 ltac:(lia) ltac:(lia)) in Hn.
    unfold int_max_str_digits. rewrite (proj2 (Z.ltb_ge _ _) Hn). reflexivity. }
  split; [exact Hi|].
  rewrite get_sessions_eq, Hr. unfold total_sessions_of.
  rewrite Hrows, Hmv, Hv, Hi. reflexivity.
Qed.

Lemma metric_value_round_trip_witness :
  int_value (" " ++ str_of_Z (-42) ++ String "160"%char EmptyString) = Ok (-42)%Z /\
  Sessions.get_sessions_for_property (value_vendor (String " " (String "-" (String "4" (String "2" (String "160"%char EmptyString))))))
    "182279779" "30daysAgo" "today" =
  (Ok (-42)%Z,
   [VRunReport DefaultCreds (sessions_request "182279779" "30daysAgo" "today")]).
Proof.
  apply (metric_value_round_trip
    (value_vendor (String " " (String "-" (String "4" (String "2" (String "160"%char EmptyString))))))
    "182279779" "30daysAgo" "today"
    {| rows := [{| metric_values := [{| mv_value := String " " (String "-" (String "4" (String "2" (String "160"%char EmptyString)))) |}] |}] |}
    {| metric_values := [{| mv_value := String " " (String "-" (String "4" (String "2" (String "160"%char EmptyString)))) |}] |} []
    {| mv_value := String " " (String "-" (String "4" (String "2" (String "160"%char EmptyString)))) |} []
    (-42)%Z " " (String "160"%char EmptyString));
    vm_compute; reflexivity.
Defined.

(** X2.  A metric value that contains a ["."] (a decimal such as ["12.5"];
    at most 4300 code points, beyond which the digit limit may be reported
    first) or that is empty or whitespace only is not an integer literal:
    [get_sessions_for_property] raises, after its one [run_report] call,
    [ValueError("invalid literal for int() with base 10: " + repr(value))]
    ([repr] cut at 200 code points). *)
Theorem metric_value_rejected V pid sd ed resp row rest mv mvs :
  (has_char "." (mv_value mv) = true /\ (String.length (mv_value mv) <= 4300)%nat) \/
  all_space (mv_value mv) = true ->
  v_run_report V DefaultCreds (sessions_request pid sd ed) = Ok resp ->
  rows resp = row :: rest -> metric_values row = mv :: mvs ->
  int_value (mv_value mv) = Raise (ValueError (int_invalid_literal (mv_value mv))) /\
  Sessions.get_sessions_for_property V pid sd ed =
    (Raise (ValueError (int_invalid_literal (mv_value mv))),
     [VRunReport DefaultCreds (sessions_request pid sd ed)]).
Proof.
  intros Hs Hr Hrows Hmv.
  assert (Hi : int_value (mv_value mv) =
               Raise (ValueError (int_invalid_literal (mv_value mv)))).
  { destruct Hs as [[Hd Hl]|Hb];
      [apply int_value_dot; assumption|apply int_value_blank, Hb]. }
  split; [exact Hi|].
  rewrite get_sessions_eq, Hr. unfold total_sessions_of.
  rewrite Hrows, Hmv, Hi. reflexivity.
Qed.

Lemma metric_value_rejected_witness :
  Sessions.get_sessions_for_property decimal_vendor
    "182279779" "30daysAgo" "today" =
  (Raise (ValueError "invalid literal for int() with base 10: '12.5'"),
   [VRunReport DefaultCreds (sessions_request "182279779" "30daysAgo" "today")]) /\
  Sessions.get_sessions_for_property (value_vendor "1'5.0")
    "182279779" "30daysAgo" "today" =
  (Raise (ValueError ("invalid literal for int() with base 10: " ++
                      String "034"%char ("1'5.0" ++ String "034"%char EmptyString))),
   [VRunReport DefaultCreds (sessions_request "182279779" "30daysAgo" "today")]).
Proof.
  split.
  - rewrite (proj2 (metric_value_rejected decimal_vendor "182279779" "30daysAgo" "today"
      decimal_response {| metric_values := [{| mv_value := "12.5" |}] |} []
      {| mv_value := "12.5" |} []
      (or_introl (conj eq_refl (proj1 (Nat.leb_le (String.length "12.5") 4300) eq_refl)))
      eq_refl eq_refl eq_refl)).
    vm_compute. reflexivity.
  - rewrite (proj2 (metric_value_rejected (value_vendor "1'5.0")
      "182279779" "30daysAgo" "today"
      {| rows := [{| metric_values := [{| mv_value := "1'5.0" |}] |}] |}
      {| metric_values := [{| mv_value := "1'5.0" |}] |} []
      {| mv_value := "1'5.0" |} []
      (or_introl (conj eq_refl (proj1 (Nat.leb_le (String.length "1'5.0") 4300) eq_refl)))
      eq_refl eq_refl eq_refl)).
    vm_compute. reflexivity.
Defined.

(** X9.  [int()] refuses more than 4300 digits: a metric value
    [ws1 + str(n) + ws2] with [abs(n) >= 10 ** 4300] makes
    [get_sessions_for_property] raise, after its one [run_report] call,
    [ValueError] with the "Exceeds the limit (4300 digits)" message that
    gives the number of digits of [str(abs(n))]. *)
Theorem metric_value_too_long V pid sd ed resp row rest mv mvs n ws1 ws2 :
  all_int_space ws1 = true -> all_int_space ws2 = true ->
  (10 ^ 4300 <= Z.abs n)%Z ->
  v_run_report V DefaultCreds (sessions_request pid sd ed) = Ok resp ->
  rows resp = row :: rest -> metric_values row = mv :: mvs ->
  mv_value mv = (ws1 ++ str_of_Z n ++ ws2)%string ->
  (4300 < Z.of_nat (length (digits_of (Z.abs n))))%Z /\
  Sessions.get_sessions_for_property V pid sd ed =
    (Raise (ValueError (int_too_many_digits (Z.of_nat (length (digits_of (Z.abs n)))))),
     [VRunReport DefaultCreds (sessions_request pid sd ed)]).
Proof.
  intros H1 H2 Hn Hr Hrows Hmv Hv.
  assert (Hd : (4300 < Z.of_nat (length (digits_of (Z.abs n))))%Z).
  { destruct (Z.lt_ge_cases 4300 (Z.of_nat (length (digits_of (Z.abs n)))))
      as [H|H]; [exact H|].
    apply (digits_of_length (Z.abs n) 4300 ltac:(lia) ltac:(lia)) in H. lia. }
  split; [exact Hd|].
  rewrite get_sessions_eq, Hr. unfold total_sessions_of.
  rewrite Hrows, Hmv, Hv, int_value_str_of_Z by assumption.
  unfold int_max_str_digits. rewrite (proj2 (Z.ltb_lt _ _) Hd). reflexivity.
Qed.

Lemma metric_value_too_long_witness :
  Sessions.get_sessions_for_property (value_vendor (" " ++ str_of_Z (10 ^ 4300) ++ " "))
    "182279779" "30daysAgo" "today" =
  (Raise (ValueError (int_too_many_digits 4301)),
   [VRunReport DefaultCreds (sessions_request "182279779" "30daysAgo" "today")]).
Proof.
  assert (Hp : (0 <= 10 ^ 4300)%Z) by (apply Z.pow_nonneg; lia).
  assert (Hn : (10 ^ 4300 <= Z.abs (10 ^ 4300))%Z)
    by (rewrite (Z.abs_eq _ Hp); apply Z.le_refl).
  destruct (metric_value_too_long (value_vendor (" " ++ str_of_Z (10 ^ 4300) ++ " "))
    "182279779" "30daysAgo" "today"
    {| rows := [{| metric_values :=
                   [{| mv_value := " " ++ str_of_Z (10 ^ 4300) ++ " " |}] |}] |}
    {| metric_values := [{| mv_value := " " ++ str_of_Z (10 ^ 4300) ++ " " |}] |} []
    {| mv_value := " " ++ str_of_Z (10 ^ 4300) ++ " " |} [] (10 ^ 4300)%Z " " " "
    eq_refl eq_refl Hn eq_refl eq_refl eq_refl eq_refl) as [Hd Hg].
  rewrite Hg.
  assert (Hlt : (Z.abs (10 ^ 4300) < 10 ^ 4301)%Z).
  { rewrite (Z.abs_eq _ Hp). apply Z.pow_lt_mono_r; [reflexivity|discriminate|reflexivity]. }
  apply (digits_of_length (Z.abs (10 ^ 4300)) 4301 (Z.abs_nonneg _)
           ltac:(discriminate)) in Hlt.
  clear Hg Hn Hp.
  replace (Z.of_nat (Datatypes.length (digits_of (Z.abs (10 ^ 4300)))))
    with 4301%Z by lia.
  reflexivity.
Defined.

(** ** [prop_summary.property.split("/")[-1]] *)

Lemma forallb_take_while {A} (p : A -> bool) l :
  forallb p (take_while p l) = true.
Proof.
  induction l as [|x l IH]; simpl; [reflexivity|].
  destruct (p x) eqn:E; simpl; [rewrite E, IH|]; reflexivity.
Qed.

Lemma has_char_slash s :
  has_char "/" s = negb (forallb not_slash (list_ascii_of_string s)).
Proof.
  unfold has_char, not_slash. induction (list_ascii_of_string s) as [|c l IH];
    simpl; [reflexivity|].
  rewrite IH. destruct (Ascii.eqb c "/"); reflexivity.
Qed.

Lemma after_last_slash_suffix p id :
  forallb not_slash (list_ascii_of_string id) = true ->
  after_last_slash (p ++ "/" ++ id) = id.
Proof.
  intros H. unfold after_last_slash.
  rewrite !list_ascii_of_string_app.
  change (list_ascii_of_string "/") with ["/"%char]. cbn [app].
  rewrite rev_app_distr. cbn [rev]. rewrite <- app_assoc, take_while_app,
    forallb_rev, H. cbn [app take_while]. unfold not_slash at 1. cbn.
  rewrite app_nil_r, rev_involutive. apply string_of_list_ascii_of_string.
Qed.

(** X3.  The property entry of the listing loop never fails; its
    [propertyId] is the part of the resource name after the last ["/"]: it
    contains no ["/"], it is the whole name when the name has no ["/"], and
    it is [id] for a name ["<p>/<id>"] where [id] has no ["/"] (for
    ["properties/182279779"], ["182279779"]). *)
Theorem property_id_extraction ps :
  Listing.property_entry ps =
    (Ok (JObj [("property", JStr (property ps));
               ("propertyId", JStr (after_last_slash (property ps)));
               ("displayName", JStr (ps_display_name ps))]), []) /\
  has_char "/" (after_last_slash (property ps)) = false /\
  (has_char "/" (property ps) = false ->
     after_last_slash (property ps) = property ps) /\
  (forall p id, has_char "/" id = false ->
     property ps = (p ++ "/" ++ id)%string ->
     after_last_slash (property ps) = id).
Proof.
  split; [|split; [|split]].
  - unfold Listing.property_entry. rewrite split_last_slash, bind_ret.
    reflexivity.
  - rewrite has_char_slash. unfold after_last_slash.
    rewrite list_ascii_of_string_of_list_ascii, forallb_rev,
      forallb_take_while. reflexivity.
  - intros H. rewrite has_char_slash in H.
    destruct (split_slash_shape (property ps)) as [[_ [_ Ha]]|[Hf _]];
      [exact Ha|]. rewrite Hf in H. discriminate.
  - intros p id H ->. rewrite has_char_slash in H.
    apply after_last_slash_suffix. destruct (forallb _ _); [reflexivity|discriminate].
Qed.

Lemma property_id_extraction_witness :
  after_last_slash (property
    {| property := "properties/182279779"; ps_display_name := "GA4" |}) =
  "182279779".
Proof.
  apply (proj2 (proj2 (proj2 (property_id_extraction
    {| property := "properties/182279779"; ps_display_name := "GA4" |})))
    "properties" "182279779"); vm_compute; reflexivity.
Defined.

(** ** The listing handlers and [accounts.main] *)

Lemma listing_run_any {R} V c (mk : list json -> R) :
  bind (list_account_summaries V c)
    (fun summaries => bind (Listing.accounts_data summaries)
                        (fun data => ret (mk data))) =
  (match v_list_account_summaries V c with
   | Ok ss => Ok (mk (listing_entries ss))
   | Raise e => Raise e
   end, [VListAccountSummaries c]).
Proof.
  unfold list_account_summaries.
  destruct (v_list_account_summaries V c) as [ss|e]; [|reflexivity].
  unfold bind at 1. destruct (accounts_data_eq ss) as [He _].
  rewrite He, bind_ok_nil. reflexivity.
Qed.

(** X4.  [main_oauth.ga4_list_accounts] and [main_old.ga4_list_accounts] do
    not catch an exception of [list_account_summaries]: the handler raises
    it after that one call and builds no partial listing. *)
Theorem listing_vendor_error_uncaught V req e :
  (v_list_account_summaries V DefaultCreds = Raise e ->
   MainOld.ga4_list_accounts V req =
     (Raise e, [VListAccountSummaries DefaultCreds])) /\
  (valid_bearer (auth_header req) = true ->
   v_list_account_summaries V (UserCreds (bearer_token req) []) = Raise e ->
   MainOauth.ga4_list_accounts V req =
     (Raise e, [VListAccountSummaries (UserCreds (bearer_token req) [])])).
Proof.
  split.
  - intros H. unfold MainOld.ga4_list_accounts. rewrite listing_run_any, H.
    reflexivity.
  - intros Hv H. unfold MainOauth.ga4_list_accounts.
    destruct (oauth_authenticate_cases req) as [[Hv' _]|[_ Ha]]; [congruence|].
    rewrite Ha, bind_ok_nil. cbv beta iota.
    rewrite listing_run_any, H. reflexivity.
Qed.

Lemma listing_vendor_error_uncaught_witness :
  MainOauth.ga4_list_accounts failing_vendor sample_request =
  (Raise (VendorError "403 PERMISSION_DENIED"),
   [VListAccountSummaries (UserCreds "ya29.token" [])]).
Proof.
  apply (proj2 (listing_vendor_error_uncaught failing_vendor sample_request
    (VendorError "403 PERMISSION_DENIED"))); vm_compute; reflexivity.
Defined.

(** X5.  [accounts.main] prints exactly the body that
    [main_old.ga4_list_accounts] answers with status 200, for every request:
    both issue the same single [list_account_summaries] call with the
    ambient credentials, and raise the same exception when it fails. *)
Theorem accounts_main_matches_handler V req :
  snd (Accounts.main V) = snd (MainOld.ga4_list_accounts V req) /\
  snd (Accounts.main V) = [VListAccountSummaries DefaultCreds] /\
  fst (MainOld.ga4_list_accounts V req) =
    match fst (Accounts.main V) with
    | Ok j => Ok (MainOld.json_response j 200)
    | Raise e => Raise e
    end.
Proof.
  unfold Accounts.main, MainOld.ga4_list_accounts.
  rewrite !listing_run_any. simpl.
  destruct (v_list_account_summaries V DefaultCreds); repeat split.
Qed.

(** ** Parameters from a JSON body that is not an object *)

Lemma resolved_non_object req :
  truthy (args_param req "property_id") = false ->
  (forall o, json_or_empty req <> JObj o) ->
  resolved_params req =
    Raise (AttributeError ("'" ++ type_name (json_or_empty req) ++
                           "' object has no attribute 'get'")).
Proof.
  intros Hp Ho. unfold resolved_params. rewrite Hp.
  destruct (json_or_empty req) eqn:E; try reflexivity.
  exfalso. eapply Ho; reflexivity.
Qed.

(** X6.  When [property_id] is falsy in the query string and the JSON body
    is truthy but not an object (a non-empty list or string, a non-zero
    number, [true]), [data.get(...)] raises [AttributeError] in all three
    sessions handlers (the [try] of [main_oauth] and [main_old] only guards
    [get_json]); the handler makes no vendor call and builds no response,
    neither 400 nor 200.  The bearer-token handlers get there once the
    request is authorised. *)
Theorem non_object_body_raises V req :
  truthy (args_param req "property_id") = false ->
  (forall o, json_or_empty req <> JObj o) ->
  let e := AttributeError ("'" ++ type_name (json_or_empty req) ++
                           "' object has no attribute 'get'") in
  MainOld.ga4_property_sessions V req = (Raise e, []) /\
  (valid_bearer (auth_header req) = true ->
   MainOauth.ga4_property_sessions V req = (Raise e, [])) /\
  (req_method req <> "OPTIONS" -> valid_bearer (auth_header req) = true ->
   Main.ga4_property_sessions_oauth V req = (Raise e, [])).
Proof.
  intros Hp Ho e. pose proof (resolved_non_object req Hp Ho) as Hr.
  split; [|split].
  - rewrite old_sessions_eq, Hr. reflexivity.
  - intros Hv. destruct (oauth_sessions_cases V req) as [[Hv' _]|[_ H]];
      [congruence|]. rewrite H, Hr. reflexivity.
  - intros Hm Hv.
    destruct (main_sessions_cases V req)
      as [[Hm' _]|[[_ [Hv' _]]|[_ [_ H]]]]; [contradiction|congruence|].
    rewrite H, Hr. reflexivity.
Qed.

Lemma non_object_body_raises_witness :
  Main.ga4_property_sessions_oauth sample_vendor list_body_request =
  (Raise (AttributeError "'list' object has no attribute 'get'"), []).
Proof.
  apply (non_object_body_raises sample_vendor list_body_request);
    [vm_compute; reflexivity | intros o; vm_compute; discriminate
    | vm_compute; discriminate | vm_compute; reflexivity].
Defined.

(** ** The [Authorization] header *)

(** X7.  For a header [Authorization: Bearer <t>], the token is [t] with
    surrounding whitespace stripped (inner spaces kept): both
    [_get_user_credentials_from_request] return credentials holding that
    token (with the [analytics.readonly] scope in [main.py], none in
    [main_oauth.py]) and the token itself, or raise [ValueError] with their
    "empty bearer token" message when nothing but whitespace follows
    ["Bearer "]. *)
Theorem bearer_token_extraction req t :
  auth_header req = ("Bearer " ++ t)%string ->
  (strip t = EmptyString ->
   MainOauth.get_user_credentials_from_request req =
     (Raise (ValueError "Empty bearer token in Authorization header."), []) /\
   Main.get_user_credentials_from_request req =
     (Raise (ValueError "Empty bearer token."), [])) /\
  (strip t <> EmptyString ->
   MainOauth.get_user_credentials_from_request req =
     (Ok (UserCreds (strip t) [], strip t), []) /\
   Main.get_user_credentials_from_request req =
     (Ok (UserCreds (strip t) readonly_scope, strip t), [])).
Proof.
  intros H.
  unfold MainOauth.get_user_credentials_from_request,
    Main.get_user_credentials_from_request.
  change (headers_get (req_headers req) "Authorization" EmptyString)
    with (auth_header req).
  rewrite H. cbn -[strip].
  replace (String.prefix EmptyString t) with true by (destruct t; reflexivity).
  cbn -[strip]. split.
  - intros Hs. rewrite Hs. split; reflexivity.
  - intros Hs. apply String.eqb_neq in Hs. rewrite Hs. split; reflexivity.
Qed.

Lemma bearer_token_extraction_witness :
  MainOauth.get_user_credentials_from_request
    {| req_method := "GET"; req_headers := [("Authorization", "Bearer  ya29 token ")];
       req_args := []; req_get_json := None |} =
  (Ok (UserCreds "ya29 token" [], "ya29 token"), []) /\
  Main.get_user_credentials_from_request
    {| req_method := "GET"; req_headers := [("Authorization", "Bearer  ya29 token ")];
       req_args := []; req_get_json := None |} =
  (Ok (UserCreds "ya29 token" readonly_scope, "ya29 token"), []).
Proof.
  apply (proj2 (bearer_token_extraction
    {| req_method := "GET"; req_headers := [("Authorization", "Bearer  ya29 token ")];
       req_args := []; req_get_json := None |} " ya29 token "
    ltac:(vm_compute; reflexivity))).
  vm_compute. discriminate.
Defined.

(** X8.  The header name is matched case-insensitively (the first header
    named [authorization] in any case is the one read), but the scheme is
    not: a value starting with ["bearer "] in lower case is rejected with
    the "missing or invalid Authorization header" [ValueError] of each
    file. *)
Theorem authorization_header_lookup req k v rest :
  req_headers req = (k, v) :: rest -> lower k = "authorization" ->
  auth_header req = v /\
  (forall t, v = ("bearer " ++ t)%string ->
   MainOauth.get_user_credentials_from_request req =
     (Raise (ValueError ("Missing or invalid Authorization header. " ++
                         "Expected: 'Authorization: Bearer <ACCESS_TOKEN>'")), []) /\
   Main.get_user_credentials_from_request req =
     (Raise (ValueError
        "Missing/invalid Authorization header. Use: Bearer <ACCESS_TOKEN>"), [])).
Proof.
  intros Hh Hk.
  assert (Ha : auth_header req = v).
  { unfold auth_header. rewrite Hh. simpl. rewrite Hk. reflexivity. }
  split; [exact Ha|]. intros t ->.
  unfold MainOauth.get_user_credentials_from_request,
    Main.get_user_credentials_from_request.
  change (headers_get (req_headers req) "Authorization" EmptyString)
    with (auth_header req).
  rewrite Ha. split; reflexivity.
Qed.

Lemma authorization_header_lookup_witness :
  auth_header {| req_method := "GET"; req_headers := [("AUTHORIZATION", "bearer t")];
                 req_args := []; req_get_json := None |} = "bearer t" /\
  (forall t, "bearer t" = ("bearer " ++ t)%string ->
   MainOauth.get_user_credentials_from_request
     {| req_method := "GET"; req_headers := [("AUTHORIZATION", "bearer t")];
        req_args := []; req_get_json := None |} =
     (Raise (ValueError ("Missing or invalid Authorization header. " ++
                         "Expected: 'Authorization: Bearer <ACCESS_TOKEN>'")), []) /\
   Main.get_user_credentials_from_request
     {| req_method := "GET"; req_headers := [("AUTHORIZATION", "bearer t")];
        req_args := []; req_get_json := None |} =
     (Raise (ValueError
        "Missing/invalid Authorization header. Use: Bearer <ACCESS_TOKEN>"), [])).
Proof.
  apply (authorization_header_lookup
    {| req_method := "GET"; req_headers := [("AUTHORIZATION", "bearer t")];
       req_args := []; req_get_json := None |} "AUTHORIZATION" "bearer t" []);
    vm_compute; reflexivity.
Defined.

(** ** Which SDK calls the handlers issue *)

Lemma dispatch_log r (report : json -> json -> json -> M response) resp400 c :
  (forall pid sd ed, snd (report pid sd ed) = [] \/
     exists rq, snd (report pid sd ed) = [VRunReport c rq]) ->
  snd (params_dispatch r report resp400) = [] \/
  exists rq, snd (params_dispatch r report resp400) = [VRunReport c rq].
Proof.
  intros Hr. destruct r as [[[p s] e]|ex]; simpl; [|left; reflexivity].
  destruct (truthy p); [apply Hr|left; reflexivity].
Qed.

(** X10.  Each bearer-token handler ([main_oauth.ga4_list_accounts],
    [main_oauth.ga4_property_sessions], [main.ga4_list_accounts_oauth],
    [main.ga4_property_sessions_oauth]) issues at most one SDK call, and
    only for a request with a valid bearer header, with credentials that
    hold the token of that header: never the ambient service account,
    never another token. *)
Theorem bearer_handlers_calls (fe : exn -> string) V req :
  let caller_call (l : list vcall) :=
    l = [] \/
    (valid_bearer (auth_header req) = true /\
     exists x sc, l = [x] /\ vcall_creds x = UserCreds (bearer_token req) sc) in
  caller_call (snd (MainOauth.ga4_list_accounts V req)) /\
  caller_call (snd (MainOauth.ga4_property_sessions V req)) /\
  caller_call (snd (Main.ga4_list_accounts_oauth fe V req)) /\
  caller_call (snd (Main.ga4_property_sessions_oauth V req)).
Proof.
  intros caller_call. split; [|split; [|split]].
  - unfold MainOauth.ga4_list_accounts.
    destruct (oauth_authenticate_cases req) as [[_ [msg Ha]]|[Hv Ha]];
      rewrite Ha, bind_ok_nil; [left; reflexivity|].
    cbv beta iota. rewrite listing_run_any. right. split; [exact Hv|].
    do 2 eexists. split; reflexivity.
  - destruct (oauth_sessions_cases V req) as [[_ [msg H]]|[Hv H]];
      rewrite H; [left; reflexivity|].
    destruct (dispatch_log (resolved_params req)
                (MainOauth.sessions_report V (UserCreds (bearer_token req) []))
                (MainOauth.json_response missing_property_id 400)
                (UserCreds (bearer_token req) [])) as [Hl|[rq Hl]].
    + intros pid sd ed. rewrite oauth_sessions_report. unfold report_run.
      destruct (dates_ok sd ed); [right; eexists; reflexivity|left; reflexivity].
    + left. exact Hl.
    + right. split; [exact Hv|]. rewrite Hl. do 2 eexists. split; reflexivity.
  - unfold Main.ga4_list_accounts_oauth, try_except.
    destruct (String.eqb (req_method req) "OPTIONS"); [left; reflexivity|].
    unfold Main.list_accounts_try.
    destruct (main_credentials_cases req) as [[_ [msg Hc]]|[Hv Hc]];
      rewrite Hc; [left; reflexivity|].
    rewrite bind_ok_nil. cbv beta iota. rewrite listing_run_any.
    right. split; [exact Hv|].
    destruct (v_list_account_summaries _ _); simpl;
      do 2 eexists; split; reflexivity.
  - destruct (main_sessions_cases V req)
      as [[_ H]|[[_ [_ [msg H]]]|[_ [Hv H]]]]; rewrite H;
      [left; reflexivity|left; reflexivity|].
    destruct (dispatch_log (resolved_params req)
                (Main.sessions_report V (UserCreds (bearer_token req) readonly_scope))
                (Main.json_response missing_property_id 400)
                (UserCreds (bearer_token req) readonly_scope)) as [Hl|[rq Hl]].
    + intros pid sd ed. rewrite main_sessions_report. unfold report_run.
      destruct (dates_ok sd ed); [right; eexists; reflexivity|left; reflexivity].
    + left. exact Hl.
    + right. split; [exact Hv|]. rewrite Hl. do 2 eexists. split; reflexivity.
Qed.

(** ** [sessions.py] against [main_old.ga4_property_sessions] *)

Lemma truthy_str s : s <> EmptyString -> truthy (JStr s) = true.
Proof. destruct s; [contradiction|reflexivity]. Qed.

(** X11.  For non-empty [property_id], [start_date] and [end_date] in the
    query string, [main_old.ga4_property_sessions] issues the same single
    [run_report] call as [sessions.get_sessions_for_property] on those
    three strings, answers 200 with the count that function returns (the
    parameters echoed), and raises what it raises; [sessions.main] prints
    the body the handler answers for its own property id and range. *)
Theorem old_handler_matches_get_sessions V pid sd ed :
  pid <> EmptyString -> sd <> EmptyString -> ed <> EmptyString ->
  snd (MainOld.ga4_property_sessions V (query_request pid sd ed)) =
    snd (Sessions.get_sessions_for_property V pid sd ed) /\
  fst (MainOld.ga4_property_sessions V (query_request pid sd ed)) =
    match fst (Sessions.get_sessions_for_property V pid sd ed) with
    | Ok n => Ok (MainOld.json_response
                    (sessions_result (JStr pid) (JStr sd) (JStr ed) n) 200)
    | Raise e => Raise e
    end /\
  snd (Sessions.main V) =
    snd (MainOld.ga4_property_sessions V
           (query_request "182279779" "30daysAgo" "today")) /\
  fst (MainOld.ga4_property_sessions V
         (query_request "182279779" "30daysAgo" "today")) =
    match fst (Sessions.main V) with
    | Ok j => Ok (MainOld.json_response j 200)
    | Raise e => Raise e
    end.
Proof.
  intros Hp Hs He.
  assert (Hgen : forall pid sd ed, pid <> EmptyString -> sd <> EmptyString ->
    ed <> EmptyString ->
    MainOld.ga4_property_sessions V (query_request pid sd ed) =
    (match fst (Sessions.get_sessions_for_property V pid sd ed) with
     | Ok n => Ok (MainOld.json_response
                     (sessions_result (JStr pid) (JStr sd) (JStr ed) n) 200)
     | Raise e => Raise e
     end, snd (Sessions.get_sessions_for_property V pid sd ed))).
  { clear Hp Hs He pid sd ed. intros pid sd ed Hp Hs He.
    assert (Hr : resolved_params (query_request pid sd ed) =
                 Ok (JStr pid, JStr sd, JStr ed)).
    { unfold resolved_params, args_param. simpl.
      destruct pid; [contradiction|reflexivity]. }
    assert (Hq : report_request (JStr pid) (JStr sd) (JStr ed) =
                 sessions_request pid sd ed).
    { unfold report_request, py_or. rewrite (truthy_str sd Hs), (truthy_str ed He).
      reflexivity. }
    rewrite old_sessions_eq, Hr. unfold params_dispatch.
    assert (Hdo : dates_ok (JStr sd) (JStr ed) = true)
      by (unfold dates_ok, date_ok; rewrite !orb_true_r; reflexivity).
    rewrite (truthy_str pid Hp), old_sessions_report, get_sessions_eq.
    unfold report_run. rewrite Hdo, Hq.
    unfold sessions_outcome, py_or. rewrite (truthy_str sd Hs), (truthy_str ed He).
    simpl. destruct (v_run_report V DefaultCreds (sessions_request pid sd ed));
      [|reflexivity].
    destruct (total_sessions_of a); reflexivity. }
  rewrite (Hgen pid sd ed Hp Hs He).
  rewrite (Hgen "182279779" "30daysAgo" "today") by discriminate.
  unfold Sessions.main. cbv zeta.
  destruct (Sessions.get_sessions_for_property V "182279779" "30daysAgo" "today")
    as [[n|e] l]; simpl; rewrite ?app_nil_r; repeat split.
Qed.

Lemma old_handler_matches_get_sessions_witness :
  fst (MainOld.ga4_property_sessions sample_vendor
         (query_request "182279779" "7daysAgo" "today")) =
  Ok (MainOld.json_response
        (sessions_result (JStr "182279779") (JStr "7daysAgo") (JStr "today")
           5106379) 200).
Proof.
  destruct (old_handler_matches_get_sessions sample_vendor
    "182279779" "7daysAgo" "today") as [_ [H _]]; try discriminate.
  rewrite H. vm_compute. reflexivity.
Defined.

(** ** A property id in the query string *)

Lemma resolved_with_json req j :
  truthy (args_param req "property_id") = true ->
  resolved_params (with_json req j) = resolved_params req.
Proof.
  intros Hp. unfold resolved_params.
  change (args_param (with_json req j)) with (args_param req).
  rewrite Hp. reflexivity.
Qed.

(** X12.  When [property_id] is truthy in the query string, the JSON body
    is never consulted: each of the three sessions handlers behaves the
    same whatever the body (absent, malformed, an object with other
    values). *)
Theorem query_property_id_ignores_body V req j :
  truthy (args_param req "property_id") = true ->
  MainOld.ga4_property_sessions V (with_json req j) =
    MainOld.ga4_property_sessions V req /\
  MainOauth.ga4_property_sessions V (with_json req j) =
    MainOauth.ga4_property_sessions V req /\
  Main.ga4_property_sessions_oauth V (with_json req j) =
    Main.ga4_property_sessions_oauth V req.
Proof.
  intros Hp. pose proof (resolved_with_json req j Hp) as Hr.
  split; [|split].
  - rewrite !old_sessions_eq, Hr. reflexivity.
  - unfold MainOauth.ga4_property_sessions.
    change (MainOauth.authenticate (with_json req j))
      with (MainOauth.authenticate req).
    rewrite !oauth_read_params, Hr. reflexivity.
  - unfold Main.ga4_property_sessions_oauth.
    change (Main.handle_preflight (with_json req j))
      with (Main.handle_preflight req).
    change (Main.authenticate (with_json req j)) with (Main.authenticate req).
    rewrite !main_read_params, Hr. reflexivity.
Qed.

Lemma query_property_id_ignores_body_witness :
  Main.ga4_property_sessions_oauth sample_vendor
    (with_json sample_request (Some (JList [JInt 1]))) =
  Main.ga4_property_sessions_oauth sample_vendor sample_request.
Proof.
  apply (query_property_id_ignores_body sample_vendor sample_request
    (Some (JList [JInt 1]))); vm_compute; reflexivity.
Defined.

End Extras.
